(** * The diagnosis-narrative parser [rr] of [index.py]

    A shallow embedding of the function [rr] (index.py, lines 144-207) and of
    the Python string primitives it calls, followed by the properties of the
    parser stated in the specification.

    Text is modelled by [string]; a character [ascii] stands for the Unicode
    code point of the same number (U+0000 to U+00FF), so that lengths and
    indices are counted in code points as Python's [str] counts them. *)

From Stdlib Require Import String Ascii List ZArith Lia Bool Arith.
From Stdlib Require Import DecimalString.
Import ListNotations.

Local Open Scope list_scope.
Local Open Scope string_scope.

(* ===================================================================== *)
(** ** Python's [str] methods used by the parser *)
(* ===================================================================== *)

Module PyStr.

(** [c.isspace()] on the code points below 256: TAB, LF, VT, FF, CR, the
    four separators FS, GS, RS, US, the space, NEL and the no-break space.
    [str.strip()] and [str.split()] use the same class. *)
Definition isspace (c : ascii) : bool :=
  let n := nat_of_ascii c in
  (((9 <=? n) && (n <=? 13)) || ((28 <=? n) && (n <=? 32))
   || (n =? 133) || (n =? 160))%nat.

(** The line feed, written ["\n"] in the source. *)
Definition LF : string := String (ascii_of_nat 10) "".

(** [s.startswith(p)]. *)
Fixpoint startswith (p s : string) : bool :=
  match p with
  | "" => true
  | String a p' =>
      match s with
      | "" => false
      | String b s' => Ascii.eqb a b && startswith p' s'
      end
  end.

Fixpoint drop (n : nat) (s : string) : string :=
  match n with
  | O => s
  | S k => match s with "" => "" | String _ s' => drop k s' end
  end.

Fixpoint take (n : nat) (s : string) : string :=
  match n with
  | O => ""
  | S k => match s with "" => "" | String c s' => String c (take k s') end
  end.

(** Position of the first occurrence of [sub] in [s], if there is one. *)
Fixpoint index_of (sub s : string) : option nat :=
  if startswith sub s then Some O
  else match s with
       | "" => None
       | String _ s' => option_map S (index_of sub s')
       end.

(** [s.find(sub)]: the lowest index, or [-1]. *)
Definition find (s sub : string) : Z :=
  match index_of sub s with
  | Some i => Z.of_nat i
  | None => (-1)%Z
  end.

(** A slice bound as Python normalises it: a negative bound counts from
    the end, and the result is clipped to [0 .. len]. *)
Definition clip (len : nat) (i : Z) : nat :=
  let l := Z.of_nat len in
  let j := if (i <? 0)%Z then (i + l)%Z else i in
  Z.to_nat (Z.min l (Z.max 0 j)).

(** [s[lo:hi]]. *)
Definition slice (s : string) (lo hi : Z) : string :=
  let a := clip (String.length s) lo in
  let b := clip (String.length s) hi in
  take (b - a) (drop a s).

(** [s[lo:]]. *)
Definition slice_from (s : string) (lo : Z) : string :=
  drop (clip (String.length s) lo) s.

Fixpoint lstrip_by (p : ascii -> bool) (s : string) : string :=
  match s with
  | "" => ""
  | String c s' => if p c then lstrip_by p s' else s
  end.

Fixpoint rstrip_by (p : ascii -> bool) (s : string) : string :=
  match s with
  | "" => ""
  | String c s' =>
      match rstrip_by p s' with
      | "" => if p c then "" else String c ""
      | t => String c t
      end
  end.

(** [s.strip()]. *)
Definition strip (s : string) : string :=
  rstrip_by isspace (lstrip_by isspace s).

(** [s.rstrip(chars)] for a one-character [chars]. *)
Definition rstrip_char (c : ascii) (s : string) : string :=
  rstrip_by (Ascii.eqb c) s.

(** Prepend a character to the first piece of a list of pieces. *)
Definition cons_head (c : ascii) (l : list string) : list string :=
  match l with
  | [] => [String c ""]
  | w :: ws => String c w :: ws
  end.

(** [s.split(sep)] for a non-empty [sep]: occurrences are taken from left
    to right without overlap; [skip] counts the characters of a matched
    separator still to be passed over. *)
Fixpoint split_go (sep s : string) (skip : nat) : list string :=
  match s with
  | "" => [""]
  | String c s' =>
      match skip with
      | S k => split_go sep s' k
      | O =>
          if startswith sep s
          then "" :: split_go sep s' (String.length sep - 1)
          else cons_head c (split_go sep s' 0)
      end
  end.

Definition split (sep s : string) : list string := split_go sep s 0.

(** [s.split(sep, 1)]: at most one cut, at the first occurrence. *)
Definition split1 (sep s : string) : list string :=
  match index_of sep s with
  | None => [s]
  | Some i => [take i s; drop (i + String.length sep) s]
  end.

(** [s.split()]: the maximal runs of characters that are not white space. *)
Fixpoint split_ws (s : string) : list string :=
  match s with
  | "" => []
  | String c s' =>
      if isspace c then split_ws s'
      else match s' with
           | "" => [String c ""]
           | String c' _ =>
               if isspace c' then String c "" :: split_ws s'
               else cons_head c (split_ws s')
           end
  end.

(** [sep.join(l)]. *)
Definition join (sep : string) (l : list string) : string :=
  String.concat sep l.

(** [s.replace(old, new)] for a non-empty [old]. *)
Fixpoint replace_go (old new s : string) (skip : nat) : string :=
  match s with
  | "" => ""
  | String c s' =>
      match skip with
      | S k => replace_go old new s' k
      | O =>
          if startswith old s
          then new ++ replace_go old new s' (String.length old - 1)
          else String c (replace_go old new s' 0)
      end
  end.

Definition replace (old new s : string) : string := replace_go old new s 0.

(** [str(n)] for a natural number, as an f-string renders it. *)
Definition str_of_nat (n : nat) : string :=
  NilEmpty.string_of_uint (Nat.to_uint n).

End PyStr.

(* ===================================================================== *)
(** ** Exceptions, and values decoded from JSON *)
(* ===================================================================== *)

(** The exceptions the body of [rr] can raise. *)
Inductive exn : Type :=
| KeyError
| TypeError
| AttributeError
| IndexError.

Inductive result (A : Type) : Type :=
| Ok (a : A)
| Raise (e : exn).

Arguments Ok {A} a.
Arguments Raise {A} e.

Definition bind {A B : Type} (m : result A) (k : A -> result B) : result B :=
  match m with
  | Ok a => k a
  | Raise e => Raise e
  end.

Notation "x <- m ;; k" := (bind m (fun x => k))
  (at level 61, m at next level, right associativity).
Notation "' p <- m ;; k" := (bind m (fun x => match x with p => k end))
  (at level 61, p pattern, m at next level, right associativity).

(** All four classes derive from [Exception]. *)
Definition is_Exception (e : exn) : bool :=
  match e with
  | KeyError | TypeError | AttributeError | IndexError => true
  end.

(** [try: m  except Exception as e: h e]. *)
Definition try_except {A : Type} (m : result A) (h : exn -> result A)
  : result A :=
  match m with
  | Ok a => Ok a
  | Raise e => if is_Exception e then h e else Raise e
  end.

(** What [response.json()] can produce. A dict is listed by its entries;
    a key is looked up at its first entry. *)
#[warnings="-register-all"]
Inductive json : Type :=
| JNull
| JBool (b : bool)
| JInt (z : Z)
| JFloat (m e : Z)
| JStr (s : string)
| JList (l : list json)
| JDict (kvs : list (string * json)).

Fixpoint lookup (k : string) (kvs : list (string * json)) : option json :=
  match kvs with
  | [] => None
  | (k', v) :: rest => if String.eqb k k' then Some v else lookup k rest
  end.

(** [v[key]] for a string key. *)
Definition subscript (v : json) (key : string) : result json :=
  match v with
  | JDict kvs =>
      match lookup key kvs with
      | Some x => Ok x
      | None => Raise KeyError
      end
  | _ => Raise TypeError
  end.

(** Looking up a [str] method ([split], [find]) on a value. *)
Definition str_method (v : json) : result string :=
  match v with
  | JStr s => Ok s
  | _ => Raise AttributeError
  end.

(** [l[i]] for a list and a non-negative index. *)
Definition getitem {A : Type} (l : list A) (i : nat) : result A :=
  match nth_error l i with
  | Some x => Ok x
  | None => Raise IndexError
  end.

(** The [for] loop that appends one result per element. *)
Fixpoint for_each {A B : Type} (f : A -> result B) (l : list A)
  : result (list B) :=
  match l with
  | [] => Ok []
  | x :: xs =>
      y <- f x ;;
      ys <- for_each f xs ;;
      Ok (y :: ys)
  end.

Definition enumerate {A : Type} (l : list A) : list (nat * A) :=
  combine (seq 0 (length l)) l.

(* ===================================================================== *)
(** ** The parser *)
(* ===================================================================== *)

Record DiagnosisRecord : Type := mkRecord {
  diagnosis : string;
  rationale : string;
  likelihood : string
}.

Module Parser.
Import PyStr.

Definition MARKER : string := "(Likelihood: ".

(** index.py 160: the stripped, non-empty lines of the diagnosis text. *)
Definition diagnosis_items_of (diagnosis_text : string) : list string :=
  map strip
    (filter (fun item => negb (String.eqb (strip item) ""))
            (split LF diagnosis_text)).

(** index.py 166-168: name and likelihood of one line. *)
Definition decode_item (diag : string) : result (string * string) :=
  let diag_parts := split MARKER diag in
  p0 <- getitem diag_parts 0 ;;
  n1 <- getitem (split1 ". " p0) 1 ;;
  let diagnosis_name := strip n1 in
  p1 <- getitem diag_parts 1 ;;
  let likelihood := strip (rstrip_char ")" p1) in
  Ok (diagnosis_name, likelihood).

(** The heading [f"{k}. {name}"]. *)
Definition heading (k : nat) (name : string) : string :=
  str_of_nat k ++ ". " ++ name.

(** index.py 176: the heading expected for the item after [i]. *)
Definition next_heading (diagnosis_items : list string) (i : nat)
  : result string :=
  nxt <- getitem diagnosis_items (i + 1) ;;
  n1 <- getitem (split1 ". " nxt) 1 ;;
  h <- getitem (split "(Likelihood:" n1) 0 ;;
  Ok (heading (i + 2) (strip h)).

(** index.py 171-184: the span of the rationale text that belongs to
    item [i]. *)
Definition locate (rationale_text : json) (diagnosis_items : list string)
           (i : nat) (diagnosis_name : string) : result string :=
  let rationale_start := heading (i + 1) diagnosis_name in
  if (i <? length diagnosis_items - 1)%nat then
    next_diag <- next_heading diagnosis_items i ;;
    text <- str_method rationale_text ;;
    let start_idx := find text rationale_start in
    let end_idx := find text next_diag in
    if negb (start_idx =? -1)%Z && negb (end_idx =? -1)%Z
    then Ok (strip (slice text
                (start_idx + Z.of_nat (String.length rationale_start))
                end_idx))
    else Ok ""
  else
    text <- str_method rationale_text ;;
    let start_idx := find text rationale_start in
    if negb (start_idx =? -1)%Z
    then Ok (strip (slice_from text
                (start_idx + Z.of_nat (String.length rationale_start))))
    else Ok "".

(** index.py 187-193: the clean-up of a located span. *)
Definition normalize (rationale_content : string) : string :=
  let c1 := strip (replace "* **Rationale:**" "" rationale_content) in
  let c2 := strip (replace "* **Clinical Relevance and Features:**" "" c1) in
  let c3 := join " " (split_ws c2) in
  let c4 := strip (replace "*" "" c3) in
  slice_from c4 (find c4 "Clinical").

(** index.py 164-201: one turn of the loop. *)
Definition rr_item (rationale_text : json) (diagnosis_items : list string)
           (i : nat) (diag : string) : result DiagnosisRecord :=
  '(diagnosis_name, lik) <- decode_item diag ;;
  rationale_content <- locate rationale_text diagnosis_items i diagnosis_name ;;
  Ok (mkRecord diagnosis_name (normalize rationale_content) lik).

(** index.py 162-203: the loop over the enumerated items. *)
Definition rr_loop (rationale_text : json) (diagnosis_items : list string)
  : result (list DiagnosisRecord) :=
  for_each (fun '(i, diag) => rr_item rationale_text diagnosis_items i diag)
           (enumerate diagnosis_items).

(** index.py 156-157: the two fields read from the payload. *)
Definition fields (original_json : json) : result (json * json) :=
  d1 <- subscript original_json "data" ;;
  o1 <- subscript d1 "output" ;;
  diagnosis_text <- subscript o1 "diagnosis" ;;
  d2 <- subscript original_json "data" ;;
  o2 <- subscript d2 "output" ;;
  rationale_text <- subscript o2 "rationale" ;;
  Ok (diagnosis_text, rationale_text).

(** index.py 156-203: the body of the [try]. *)
Definition rr_body (original_json : json) : result (list DiagnosisRecord) :=
  '(diagnosis_text, rationale_text) <- fields original_json ;;
  text <- str_method diagnosis_text ;;
  rr_loop rationale_text (diagnosis_items_of text).

(** index.py 205-207: the handler prints the message and returns []. *)
Definition rr_handler (e : exn) : result (list DiagnosisRecord) := Ok [].

(** index.py 144-207: [rr] returns a list, or an exception leaves it. *)
Definition rr (original_json : json) : result (list DiagnosisRecord) :=
  try_except (rr_body original_json) rr_handler.

(** The payload [{"data": {"output": {"diagnosis": d, "rationale": r}}}]. *)
Definition payload (diagnosis_text rationale_text : string) : json :=
  JDict [("data",
          JDict [("output",
                  JDict [("diagnosis", JStr diagnosis_text);
                         ("rationale", JStr rationale_text)])])].

Definition rr_text (diagnosis_text rationale_text : string)
  : result (list DiagnosisRecord) :=
  rr (payload diagnosis_text rationale_text).

End Parser.

Import PyStr Parser.

(* ===================================================================== *)
(** ** Notions used to state the properties *)
(* ===================================================================== *)

(** Every character of [s] satisfies [p]. *)
Fixpoint all_chars (p : ascii -> bool) (s : string) : bool :=
  match s with
  | "" => true
  | String c s' => p c && all_chars p s'
  end.

(** [sub in s]. *)
Definition contains (sub s : string) : bool :=
  match index_of sub s with
  | Some _ => true
  | None => false
  end.

(** Number of positions of [s] at which [sub] occurs. *)
Fixpoint occurrences (sub s : string) : nat :=
  (if startswith sub s then 1 else 0) +
  match s with
  | "" => 0
  | String _ s' => occurrences sub s'
  end.

Definition is_digit (c : ascii) : bool :=
  ((48 <=? nat_of_ascii c) && (nat_of_ascii c <=? 57))%nat.

Definition not_char (a c : ascii) : bool := negb (Ascii.eqb a c).

Fixpoint last_char (s : string) : option ascii :=
  match s with
  | "" => None
  | String c s' =>
      match s' with
      | "" => Some c
      | String _ _ => last_char s'
      end
  end.

(** [s.endswith(c)] for a character [c]. *)
Definition ends_with (c : ascii) (s : string) : bool :=
  match last_char s with
  | Some x => Ascii.eqb c x
  | None => false
  end.

(** [s] has no white space at either end. *)
Definition trimmed (s : string) : bool := String.eqb (strip s) s.

(** A diagnosis line ["<n>. <name> (Likelihood: <label>)"]. *)
Record Line : Type := mkLine {
  ordinal : string;
  name : string;
  label : string
}.

Definition render (l : Line) : string :=
  ordinal l ++ ". " ++ name l ++ " (Likelihood: " ++ label l ++ ")".

Definition text_of_lines (ls : list Line) : string :=
  join LF (map render ls).

(** Every heading ["<n>. <name>"] occurs exactly once in the rationale
    text. *)
Definition headings_once (ls : list Line) (rationale_text : string) : bool :=
  forallb (fun l => occurrences (ordinal l ++ ". " ++ name l) rationale_text
                    =? 1)%nat ls.

(** The lines on which name and label come back as they were written: the
    ordinal is a number, name and label are trimmed and stay on one line,
    the name has no ["(Likelihood:"] of its own, the label has no marker of
    its own and does not end with a closing parenthesis. *)
Definition plain_line (l : Line) : bool :=
  negb (String.eqb (ordinal l) "") && all_chars is_digit (ordinal l)
  && trimmed (name l) && all_chars (not_char "010") (name l)
  && negb (contains "(Likelihood:" (name l))
  && trimmed (label l) && all_chars (not_char "010") (label l)
  && negb (contains MARKER (label l))
  && negb (ends_with ")" (label l)).

(** The part of a line before its first marker (the whole line when it has
    none). *)
Definition name_segment (item : string) : string :=
  match index_of MARKER item with
  | Some i => take i item
  | None => item
  end.

(** The part of a line after its first marker, up to the next marker when
    there is one. *)
Definition likelihood_segment (item : string) : option string :=
  match index_of MARKER item with
  | None => None
  | Some i =>
      let rest := drop (i + String.length MARKER) item in
      match index_of MARKER rest with
      | Some j => Some (take j rest)
      | None => Some rest
      end
  end.

(** A line the decoder cannot read: no marker, or no [". "] before it. *)
Definition malformed (item : string) : bool :=
  negb (contains MARKER item) || negb (contains ". " (name_segment item)).

Definition decodes (item : string) : bool :=
  match decode_item item with
  | Ok _ => true
  | Raise _ => false
  end.

(** The text up to the parenthesis that closes the annotation, [depth]
    counting the parentheses opened inside it. *)
Fixpoint until_matching_close (depth : nat) (s : string) : option string :=
  match s with
  | "" => None
  | String c s' =>
      if Ascii.eqb c ")" then
        match depth with
        | O => Some ""
        | S d => option_map (String c) (until_matching_close d s')
        end
      else if Ascii.eqb c "(" then
        option_map (String c) (until_matching_close (S depth) s')
      else option_map (String c) (until_matching_close depth s')
  end.

(** The trimmed label between the marker and its matching closing
    parenthesis, as the specification describes the likelihood. *)
Definition annotated_label (item : string) : option string :=
  match index_of MARKER item with
  | None => None
  | Some i =>
      option_map strip
        (until_matching_close 0 (drop (i + String.length MARKER) item))
  end.

(** White space in [s] is made of plain spaces only. *)
Definition spaces_only (s : string) : bool :=
  all_chars (fun c => negb (isspace c) || Ascii.eqb c " ") s.

(** [s] does not begin with white space. *)
Definition starts_clean (s : string) : Prop :=
  match s with
  | "" => True
  | String c _ => isspace c = false
  end.

(** The rationale is empty, one character, or begins with ["Clinical"]. *)
Definition clinical_or_short (s : string) : bool :=
  (String.length s <=? 1)%nat || startswith "Clinical" s.

Definition name_and_likelihood (r : DiagnosisRecord) : string * string :=
  (diagnosis r, likelihood r).

(** Concrete inputs used below. *)
Definition influenza_diagnosis : string :=
  "1. Influenza (Likelihood: High)" ++ LF ++ "2. Common Cold (Likelihood: Low)".

Definition influenza_rationale : string :=
  "1. Influenza * **Rationale:** Clinical signs include fever and cough. 2. Common Cold Clinical signs are mild congestion.".

Definition three_valid_one_malformed : string :=
  "1. Influenza (Likelihood: High)" ++ LF ++ "2. Common Cold" ++ LF ++
  "3. Pneumonia (Likelihood: Low)" ++ LF ++ "4. Asthma (Likelihood: Low)".

Definition three_valid_rationale : string :=
  "1. Influenza Clinical fever. 2. Common Cold Clinical congestion. 3. Pneumonia Clinical cough. 4. Asthma Clinical wheeze.".

Definition parenthesised_label : list Line :=
  [mkLine "1" "Flu" "High (probable)"].

Definition flu_rationale : string := "1. Flu Clinical picture fits.".

(** The text the cut at ["Clinical"] is applied to: the span after the
    first four steps of the clean-up (index.py 187-192). *)
Definition cleaned (rationale_content : string) : string :=
  strip (replace "*" ""
    (join " " (split_ws
      (strip (replace "* **Clinical Relevance and Features:**" ""
        (strip (replace "* **Rationale:**" "" rationale_content))))))).





(** The carriage return. *)
Definition CR : string := String (ascii_of_nat 13) "".

(** The last character of a text as a text, as [s[-1:]] gives it. *)
Definition last_as_text (s : string) : string :=
  match last_char s with
  | Some c => String c ""
  | None => ""
  end.

(* ===================================================================== *)
(** ** The terminology search [getDiags] (index.py 211-250) *)
(* ===================================================================== *)

Module Terminology.
Import PyStr.

(** The characters [urllib.parse.quote] never escapes: letters, digits and
    ["_.-~"]. *)
Definition is_unreserved (c : ascii) : bool :=
  let n := nat_of_ascii c in
  (((65 <=? n) && (n <=? 90)) || ((97 <=? n) && (n <=? 122))
   || ((48 <=? n) && (n <=? 57)))%nat
  || Ascii.eqb c "_" || Ascii.eqb c "." || Ascii.eqb c "-" || Ascii.eqb c "~".

Definition hex_digit (n : nat) : ascii :=
  match String.get n "0123456789ABCDEF" with
  | Some c => c
  | None => "0"%char
  end.

(** ["%{:02X}".format(b)]. *)
Definition percent_encode (b : nat) : string :=
  String "%" (String (hex_digit (b / 16)) (String (hex_digit (b mod 16)) "")).

(** The UTF-8 bytes of a code point below 256. *)
Definition utf8 (c : ascii) : list nat :=
  let n := nat_of_ascii c in
  if (n <? 128)%nat then [n] else [192 + n / 64; 128 + n mod 64].

(** One byte as [quote] writes it, with the default [safe="/"]. *)
Definition quote_byte (b : nat) : string :=
  let c := ascii_of_nat b in
  if (b <? 128)%nat && (is_unreserved c || Ascii.eqb c "/")
  then String c ""
  else percent_encode b.

Definition quote_char (c : ascii) : string :=
  String.concat "" (map quote_byte (utf8 c)).

(** [urllib.parse.quote(s)]. *)
Fixpoint quote (s : string) : string :=
  match s with
  | "" => ""
  | String c s' => quote_char c ++ quote s'
  end.

(** index.py 231-234: the address that is called. *)
Definition search_url (base term : string) : string :=
  base ++ "/csnoserv/api/search/search?term=" ++ quote term
       ++ "&state=active&acceptability=synonyms&fullconcept=false&returnlimit=-1".

(** What [json.loads(urlopen(url).read().decode('utf-8'))] comes to: the
    decoded reply, or an exception (a subclass of [Exception]) raised on
    the way. *)
Inductive fetched : Type :=
| Fetched (data : json)
| FetchFailed.

(** [d.pop(key, None)] on the entries of a dict. *)
Definition dict_pop (key : string) (kvs : list (string * json))
  : list (string * json) :=
  filter (fun kv => negb (String.eqb key (fst kv))) kvs.

(** index.py 242-243: the two [pop] calls on one element. A list has a
    [pop] that takes no default; the other values have no [pop]. *)
Definition pop_fields (concept : json) : result json :=
  match concept with
  | JDict kvs => Ok (JDict (dict_pop "id" (dict_pop "conceptFsn" kvs)))
  | JList _ => Raise TypeError
  | _ => Raise AttributeError
  end.

(** index.py 241-243: the loop over [data]. A list is walked by its
    elements, a dict by its keys and a string by its characters (strings
    themselves, without [pop]); the other values cannot be iterated. *)
Definition strip_concepts (data : json) : result json :=
  match data with
  | JList l =>
      l' <- for_each pop_fields l ;;
      Ok (JList l')
  | JDict kvs =>
      _ <- for_each pop_fields (map (fun kv => JStr (fst kv)) kvs) ;;
      Ok data
  | JStr s =>
      _ <- for_each pop_fields
             (map (fun c => JStr (String c "")) (list_ascii_of_string s)) ;;
      Ok data
  | _ => Raise TypeError
  end.

Inductive response : Type :=
| Response (status : nat) (body : json).

Definition unavailable : response :=
  Response 500 (JDict [("error", JStr "Terminology service unavailable")]).

(** index.py 231-250. [SNOMED_BASE_URL] is the value of the environment
    variable, [urlopen_json] the service behind the address. The address is
    built before the [try]; a view that returns a dict answers 200. *)
Definition getDiags (SNOMED_BASE_URL : option string)
           (urlopen_json : string -> fetched) (term : string)
  : result response :=
  urltocall <- match SNOMED_BASE_URL with
               | Some base => Ok (search_url base term)
               | None => Raise TypeError
               end ;;
  match urlopen_json urltocall with
  | FetchFailed => Ok unavailable
  | Fetched data =>
      try_except
        (data' <- strip_concepts data ;;
         Ok (Response 200 (JDict [("result", data')])))
        (fun _ => Ok unavailable)
  end.

Definition is_dict (v : json) : bool :=
  match v with
  | JDict _ => true
  | _ => false
  end.

(** The characters a quoted term is made of. *)
Definition quoted_char (c : ascii) : bool :=
  is_unreserved c || Ascii.eqb c "/" || Ascii.eqb c "%".

(** One concept as it is sent on: without its two fields, the others as
    they were. *)
Definition sent_on (concept concept' : json) : Prop :=
  exists kvs kvs',
    concept = JDict kvs /\ concept' = JDict kvs' /\
    lookup "conceptFsn" kvs' = None /\ lookup "id" kvs' = None /\
    forall k, k <> "conceptFsn" -> k <> "id" ->
              lookup k kvs' = lookup k kvs.

(** Reading back what [quote_char] wrote; used to tell quoted terms
    apart. *)
Definition hex_value (c : ascii) : option nat :=
  let n := nat_of_ascii c in
  if ((48 <=? n) && (n <=? 57))%nat then Some (n - 48)
  else if ((65 <=? n) && (n <=? 70))%nat then Some (n - 55)
  else None.

Definition unquote_byte (s : string) : option (nat * string) :=
  match s with
  | String "%" (String h (String l rest)) =>
      match hex_value h, hex_value l with
      | Some a, Some b => Some (16 * a + b, rest)
      | _, _ => None
      end
  | String c rest => Some (nat_of_ascii c, rest)
  | "" => None
  end.

Definition unquote_char (s : string) : option (ascii * string) :=
  match unquote_byte s with
  | Some (b, rest) =>
      if (b <? 128)%nat then Some (ascii_of_nat b, rest)
      else match unquote_byte rest with
           | Some (b', rest') =>
               Some (ascii_of_nat ((b - 192) * 64 + (b' - 128)), rest')
           | None => None
           end
  | None => None
  end.

End Terminology.

(* ===================================================================== *)
(** ** The clock [getCurrentDateTime] (index.py 252-262) *)
(* ===================================================================== *)

Module Clock.
Import PyStr.









End Clock.

(* ===================================================================== *)
(** ** The concept endpoint [snomed] and its helpers (index.py 264-527) *)
(* ===================================================================== *)

Module Concepts.
Import PyStr.

(** The statements the helpers give to [cursor.execute], with the
    arguments that come from the request or from earlier statements. The
    other columns (creator, dates, uuid, the fixed identifiers of the
    environment) are not listed. *)
Inductive statement : Type :=
| SelectConcept (concept_name : json)
| InsertConcept
| InsertConceptName (concept_id : Z) (concept_name : json)
| InsertReferenceTerm (snomedct_code : json)
| InsertReferenceMap (concept_reference_term_id concept_id : Z)
| InsertConceptSet (concept_id : Z).

(** How the [try] block of a helper ends. The block binds one variable
    (the fetched row, or [cursor.lastrowid]) and then closes the cursor
    and the connection; a [mysql.connector.Error] raised before the
    binding leaves the variable unbound, one raised after it does not.
    The connector is taken to raise errors of this class only, and the
    environment to be well formed (its numbers parse, its time zone is
    known), so that nothing is raised while the arguments of a statement
    are put together. *)
Inductive attempt (A : Type) : Type :=
| Completed (a : A)
| FailedBefore
| FailedAfter (a : A).

Arguments Completed {A} a.
Arguments FailedBefore {A}.
Arguments FailedAfter {A} a.

(** The database server and the interpreter, as far as the endpoint
    depends on them: what an insertion and the selection come to after the
    statements attempted so far, and [str(v)] for a value that is not a
    string. *)
Record world : Type := mkWorld {
  insert : list statement -> statement -> attempt Z;
  select : list statement -> statement -> attempt (option Z);
  text_of : json -> string
}.

Inductive raised : Type :=
| Builtin (e : exn)
| UnboundLocalError (variable : string).

Inductive outcome (A : Type) : Type :=
| Returns (a : A)
| Raises (e : raised).

Arguments Returns {A} a.
Arguments Raises {A} e.

(** A computation that carries the list of the statements attempted so
    far. *)
Definition M (A : Type) : Type :=
  list statement -> list statement * outcome A.

Definition ret {A : Type} (a : A) : M A := fun log => (log, Returns a).

Definition bindM {A B : Type} (m : M A) (k : A -> M B) : M B :=
  fun log =>
    match m log with
    | (log', Returns a) => k a log'
    | (log', Raises e) => (log', Raises e)
    end.

Notation "x <~ m ;; k" := (bindM m (fun x => k))
  (at level 61, m at next level, right associativity).

Definition lift {A : Type} (r : result A) : M A :=
  fun log =>
    match r with
    | Ok a => (log, Returns a)
    | Raise e => (log, Raises (Builtin e))
    end.

(** One [try] block around one statement. *)
Definition inserting (w : world) (stmt : statement)
  : list statement -> list statement * attempt Z :=
  fun log => ((log ++ [stmt])%list, insert w log stmt).

(** index.py 264-298: after a failure the parameter
    [concept_reference_term_id] is what is returned. *)
Definition add_concept_reference_map (w : world)
           (concept_id concept_reference_term_id : Z) : M Z :=
  fun log =>
    match inserting w (InsertReferenceMap concept_reference_term_id
                                          concept_id) log with
    | (log', Completed lastrowid) => (log', Returns lastrowid)
    | (log', FailedAfter lastrowid) => (log', Returns lastrowid)
    | (log', FailedBefore) => (log', Returns concept_reference_term_id)
    end.

(** index.py 300-331. *)
Definition add_concept_reference_term (w : world) (snomedct_code : json)
  : M Z :=
  fun log =>
    match inserting w (InsertReferenceTerm snomedct_code) log with
    | (log', Completed lastrowid) => (log', Returns lastrowid)
    | (log', FailedAfter lastrowid) => (log', Returns lastrowid)
    | (log', FailedBefore) =>
        (log', Raises (UnboundLocalError "concept_reference_term_id"))
    end.

(** index.py 335-367. *)
Definition add_concept_diagnosis_set (w : world) (concept_id : Z)
  : M string :=
  fun log =>
    match inserting w (InsertConceptSet concept_id) log with
    | (log', _) => (log', Returns "A")
    end.

(** index.py 368-401. *)
Definition add_concept_name (w : world) (concept_id : Z)
           (concept_name : json) : M string :=
  fun log =>
    match inserting w (InsertConceptName concept_id concept_name) log with
    | (log', _) => (log', Returns "A")
    end.

(** index.py 404-442. *)
Definition add_concept (w : world) : M Z :=
  fun log =>
    match inserting w InsertConcept log with
    | (log', Completed lastrowid) => (log', Returns lastrowid)
    | (log', FailedAfter lastrowid) => (log', Returns lastrowid)
    | (log', FailedBefore) => (log', Raises (UnboundLocalError "concept_id"))
    end.

(** index.py 445-478: [return 0] when no row was fetched, [r[0]]
    otherwise, also after the handler. *)
Definition check_concept (w : world) (concept_name : json) : M Z :=
  fun log =>
    let stmt := SelectConcept concept_name in
    let log' := (log ++ [stmt])%list in
    match select w log stmt with
    | Completed None => (log', Returns 0%Z)
    | Completed (Some first) => (log', Returns first)
    | FailedBefore => (log', Raises (UnboundLocalError "r"))
    | FailedAfter None => (log', Raises (Builtin TypeError))
    | FailedAfter (Some first) => (log', Returns first)
    end.

(** [str(z)] for an integer. *)
Definition str_of_Z (z : Z) : string :=
  NilEmpty.string_of_int (Z.to_int z).

(** ["{}".format(v)] for a value of the request. *)
Definition format_value (w : world) (v : json) : string :=
  match v with
  | JStr s => s
  | _ => text_of w v
  end.

(** index.py 483-527. The view returns a dict, which is answered with
    status 200. *)
Definition snomed (w : world) (request_data : json) : M json :=
  concept_name <~ lift (subscript request_data "conceptName") ;;
  snomed_code <~ lift (subscript request_data "snomedCode") ;;
  result <~ check_concept w concept_name ;;
  if (result >? 0)%Z then
    k <~ add_concept_reference_term w snomed_code ;;
    y <~ add_concept_reference_map w result k ;;
    ret (JDict [("result",
                 JStr ("SNOMED CT Mapping added for diagnosis "
                       ++ format_value w concept_name))])
  else
    concept_id <~ add_concept w ;;
    _ <~ add_concept_name w concept_id concept_name ;;
    crt_id <~ add_concept_reference_term w snomed_code ;;
    _ <~ add_concept_reference_map w concept_id crt_id ;;
    _ <~ add_concept_diagnosis_set w concept_id ;;
    ret (JDict [("result",
                 JStr ("Diagnosis " ++ format_value w concept_name
                       ++ " is created with Concept ID "
                       ++ str_of_Z concept_id ++ " "))]).

(** The value a [try] block has bound, if it has bound one. *)
Definition bound {A : Type} (a : attempt A) : option A :=
  match a with
  | Completed x | FailedAfter x => Some x
  | FailedBefore => None
  end.

(** A world for examples: no concept is known, every insertion succeeds
    and returns the number of statements attempted so far. *)
Definition fresh_world : world :=
  mkWorld (fun log _ => Completed (Z.of_nat (length log)))
          (fun _ _ => Completed None)
          (fun _ => "").

(** The same, with a concept found under the number 42. *)
Definition known_world : world :=
  mkWorld (fun log _ => Completed (Z.of_nat (length log)))
          (fun _ _ => Completed (Some 42%Z))
          (fun _ => "").

(** The same as [fresh_world], except that the insertion of a reference
    term fails. *)
Definition term_failing_world : world :=
  mkWorld (fun log stmt =>
             match stmt with
             | InsertReferenceTerm _ => FailedBefore
             | _ => Completed (Z.of_nat (length log))
             end)
          (fun _ _ => Completed None)
          (fun _ => "").

(** A world in which every statement fails. *)
Definition broken_world : world :=
  mkWorld (fun _ _ => FailedBefore) (fun _ _ => FailedBefore) (fun _ => "").

Definition fever_request : json :=
  JDict [("conceptName", JStr "Fever"); ("snomedCode", JStr "386661006")].

End Concepts.

(* ===================================================================== *)
(** ** The primitives on small inputs *)
(* ===================================================================== *)

Example split_twice : split "ab" "xabyabab" = ["x"; "y"; ""; ""].
Proof. reflexivity. Qed.

Example split_empty_text : split LF "" = [""].
Proof. reflexivity. Qed.

Example split1_first_only : split1 ". " "1. a. b" = ["1"; "a. b"].
Proof. reflexivity. Qed.

Example split1_absent : split1 ". " "Cough" = ["Cough"].
Proof. reflexivity. Qed.

Example split_ws_runs : split_ws ("  a b " ++ LF ++ " c ") = ["a"; "b"; "c"].
Proof. reflexivity. Qed.

Example replace_left_to_right : replace "aa" "" "xaaay" = "xay".
Proof. reflexivity. Qed.

Example strip_both_sides : strip ("  a b " ++ LF) = "a b".
Proof. reflexivity. Qed.

Example rstrip_all_closing : rstrip_char ")" "High (probable))" = "High (probable".
Proof. reflexivity. Qed.

Example find_absent : find "Fever and cough." "Clinical" = (-1)%Z.
Proof. reflexivity. Qed.

Example slice_from_minus_one : slice_from "Fever and cough." (-1) = ".".
Proof. reflexivity. Qed.

Example slice_from_minus_one_empty : slice_from "" (-1) = "".
Proof. reflexivity. Qed.

Example slice_crossed_bounds : slice "hello" 4 2 = "".
Proof. reflexivity. Qed.

Example str_of_nat_12 : str_of_nat 12 = "12".
Proof. reflexivity. Qed.

Example rr_on_null : rr JNull = Ok [].
Proof. reflexivity. Qed.

Example rr_without_output : rr (JDict [("data", JStr "text")]) = Ok [].
Proof. reflexivity. Qed.

Example rr_on_number_diagnosis :
  rr (JDict [("data", JDict [("output",
        JDict [("diagnosis", JInt 3); ("rationale", JStr "")])])]) = Ok [].
Proof. reflexivity. Qed.

Example rr_on_list_rationale :
  rr (JDict [("data", JDict [("output",
        JDict [("diagnosis", JStr "1. Flu (Likelihood: High)");
               ("rationale", JList [])])])]) = Ok [].
Proof. reflexivity. Qed.

(* ===================================================================== *)
(** ** Facts about the string primitives *)
(* ===================================================================== *)

Section StringFacts.

Lemma app_nil_end (s : string) : s ++ "" = s.
Proof. induction s; simpl; congruence. Qed.

Lemma app_assoc (a b c : string) : (a ++ b) ++ c = a ++ (b ++ c).
Proof. induction a; simpl; congruence. Qed.

Lemma length_app (a b : string) :
  String.length (a ++ b) = String.length a + String.length b.
Proof. induction a; simpl; congruence. Qed.

Lemma drop_nil (n : nat) : drop n "" = "".
Proof. destruct n; reflexivity. Qed.

Lemma drop_app_length (a b : string) : drop (String.length a) (a ++ b) = b.
Proof. induction a; simpl; auto. Qed.

Lemma take_app_length (a b : string) : take (String.length a) (a ++ b) = a.
Proof. induction a; simpl; congruence. Qed.

Lemma drop_add (n m : nat) (s : string) : drop (n + m) s = drop m (drop n s).
Proof.
  revert s; induction n as [|n IH]; intros s; simpl; auto.
  destruct s; auto. now rewrite drop_nil.
Qed.

Lemma length_drop (n : nat) (s : string) :
  String.length (drop n s) = String.length s - n.
Proof.
  revert s; induction n as [|n IH]; intros [|c s]; simpl; auto.
Qed.

Lemma startswith_app (p rest : string) : startswith p (p ++ rest) = true.
Proof.
  induction p as [|a p IH]; simpl.
  - reflexivity.
  - now rewrite Ascii.eqb_refl.
Qed.

(** A match that runs past the end of [t] into a character that the
    pattern does not contain is impossible. *)
Lemma startswith_across (p t u : string) (c : ascii) :
  all_chars (not_char c) p = true ->
  startswith (p ++ String c "") (t ++ String c u) = true ->
  startswith p t = true.
Proof.
  revert t; induction p as [|a p IH]; intros t Hp H; simpl in *.
  - reflexivity.
  - apply andb_true_iff in Hp as [Hac Hp].
    destruct t as [|b t]; simpl in *.
    + apply andb_true_iff in H as [H _].
      apply Ascii.eqb_eq in H; subst a.
      unfold not_char in Hac. now rewrite Ascii.eqb_refl in Hac.
    + apply andb_true_iff in H as [Hab H]. rewrite Hab; simpl.
      now apply IH.
Qed.

(** The same when the foreign character is the last of the text. *)
Lemma startswith_before (p t u : string) (c : ascii) :
  all_chars (not_char c) p = true ->
  startswith p (t ++ String c u) = true ->
  startswith p t = true.
Proof.
  revert t; induction p as [|a p IH]; intros t Hp H; simpl in *.
  - reflexivity.
  - apply andb_true_iff in Hp as [Hac Hp].
    destruct t as [|b t]; simpl in *.
    + apply andb_true_iff in H as [H _].
      apply Ascii.eqb_eq in H; subst a.
      unfold not_char in Hac. now rewrite Ascii.eqb_refl in Hac.
    + apply andb_true_iff in H as [Hab H]. rewrite Hab; simpl.
      now apply IH.
Qed.

Lemma index_of_cons (sub : string) (c : ascii) (s : string) :
  index_of sub (String c s) =
  if startswith sub (String c s) then Some 0
  else option_map S (index_of sub s).
Proof. reflexivity. Qed.

Lemma index_of_nil (sub : string) :
  sub <> "" -> index_of sub "" = None.
Proof. destruct sub; [congruence | reflexivity]. Qed.

(** A found position is inside the text and the pattern starts there. *)
Lemma index_of_Some (sub s : string) (i : nat) :
  index_of sub s = Some i ->
  startswith sub (drop i s) = true /\ i <= String.length s.
Proof.
  revert i; induction s as [|c s IH]; intros i H.
  - simpl in H. destruct (startswith sub "") eqn:E; [|discriminate].
    injection H as <-. simpl. split; [assumption | lia].
  - rewrite index_of_cons in H.
    destruct (startswith sub (String c s)) eqn:E.
    + injection H as <-. simpl. split; [assumption | lia].
    + destruct (index_of sub s) as [j|]; [|discriminate].
      injection H as <-. destruct (IH j eq_refl) as [H1 H2].
      simpl. split; [assumption | lia].
Qed.

(** The search passes over a stretch in which the pattern starts
    nowhere. *)
Lemma index_of_skip (sub a rest : string) :
  (forall u t, a = u ++ t -> t <> "" -> startswith sub (t ++ rest) = false) ->
  index_of sub (a ++ rest) =
  option_map (Nat.add (String.length a)) (index_of sub rest).
Proof.
  induction a as [|c a IH]; intros H.
  - simpl. now destruct (index_of sub rest).
  - change (String c a ++ rest) with (String c (a ++ rest)).
    rewrite index_of_cons.
    change (String c (a ++ rest)) with (String c a ++ rest).
    rewrite (H "" (String c a) eq_refl) by discriminate.
    rewrite IH.
    + now destruct (index_of sub rest).
    + intros u t -> Ht. apply (H (String c u) t); auto.
Qed.

Lemma index_of_at (sub a rest : string) :
  (forall u t, a = u ++ t -> t <> "" ->
               startswith sub (t ++ sub ++ rest) = false) ->
  index_of sub (a ++ sub ++ rest) = Some (String.length a).
Proof.
  intros H. rewrite index_of_skip by exact H.
  assert (E : index_of sub (sub ++ rest) = Some 0).
  { destruct sub as [|x sub]; [now destruct rest|].
    change (String x sub ++ rest) with (String x (sub ++ rest)).
    rewrite index_of_cons.
    change (String x (sub ++ rest)) with (String x sub ++ rest).
    now rewrite startswith_app. }
  rewrite E. simpl. f_equal. lia.
Qed.

Lemma split_go_skip (sep s : string) (k : nat) :
  split_go sep s k = split_go sep (drop k s) 0.
Proof.
  revert k; induction s as [|c s IH]; intros [|k]; simpl; auto.
Qed.

(** [split] cuts at the first occurrence and goes on after it. *)
Lemma split_unfold (sep s : string) :
  sep <> "" ->
  split sep s =
  match index_of sep s with
  | None => [s]
  | Some i => take i s :: split sep (drop (i + String.length sep) s)
  end.
Proof.
  intros Hsep. unfold split.
  induction s as [|c s IH].
  - rewrite index_of_nil by assumption. reflexivity.
  - rewrite index_of_cons.
    change (split_go sep (String c s) 0) with
      (if startswith sep (String c s)
       then "" :: split_go sep s (String.length sep - 1)
       else cons_head c (split_go sep s 0)).
    destruct (startswith sep (String c s)) eqn:E.
    + rewrite split_go_skip. simpl take.
      destruct sep as [|x sep]; [congruence|].
      simpl. now rewrite Nat.sub_0_r.
    + rewrite IH. destruct (index_of sep s) as [i|]; reflexivity.
Qed.

Lemma all_chars_app (p : ascii -> bool) (a b : string) :
  all_chars p (a ++ b) = all_chars p a && all_chars p b.
Proof.
  induction a as [|c a IH]; simpl; [reflexivity|].
  now rewrite IH, andb_assoc.
Qed.

Lemma all_chars_impl (p q : ascii -> bool) (s : string) :
  (forall c, p c = true -> q c = true) ->
  all_chars p s = true -> all_chars q s = true.
Proof.
  intros Hpq. induction s as [|c s IH]; simpl; [reflexivity|].
  intros H. apply andb_true_iff in H as [H1 H2].
  apply andb_true_iff. auto.
Qed.

Lemma all_chars_drop (p : ascii -> bool) (n : nat) (s : string) :
  all_chars p s = true -> all_chars p (drop n s) = true.
Proof.
  revert s; induction n as [|n IH]; intros [|c s] H; simpl in *; auto.
  apply andb_true_iff in H as [_ H]. auto.
Qed.

Lemma all_chars_take (p : ascii -> bool) (n : nat) (s : string) :
  all_chars p s = true -> all_chars p (take n s) = true.
Proof.
  revert s; induction n as [|n IH]; intros [|c s] H; simpl in *; auto.
  apply andb_true_iff in H as [H1 H2]. rewrite H1; simpl. auto.
Qed.

Lemma all_chars_lstrip (p q : ascii -> bool) (s : string) :
  all_chars p s = true -> all_chars p (lstrip_by q s) = true.
Proof.
  induction s as [|c s IH]; simpl; [reflexivity|].
  intros H. destruct (q c); [|exact H].
  apply andb_true_iff in H as [_ H]. auto.
Qed.

Lemma all_chars_rstrip (p q : ascii -> bool) (s : string) :
  all_chars p s = true -> all_chars p (rstrip_by q s) = true.
Proof.
  induction s as [|c s IH]; simpl; [reflexivity|].
  intros H. apply andb_true_iff in H as [H1 H2].
  specialize (IH H2).
  destruct (rstrip_by q s) as [|x t].
  - destruct (q c); simpl; [reflexivity | now rewrite H1].
  - change (all_chars p (String c (String x t)))
      with (p c && all_chars p (String x t)).
    now rewrite H1, IH.
Qed.

Lemma all_chars_strip (p : ascii -> bool) (s : string) :
  all_chars p s = true -> all_chars p (strip s) = true.
Proof.
  intros H. unfold strip. now apply all_chars_rstrip, all_chars_lstrip.
Qed.

(** Deleting occurrences leaves only characters that were there. *)
Lemma all_chars_delete (p : ascii -> bool) (old s : string) (k : nat) :
  all_chars p s = true -> all_chars p (replace_go old "" s k) = true.
Proof.
  revert k; induction s as [|c s IH]; intros k H; simpl; [reflexivity|].
  simpl in H. apply andb_true_iff in H as [H1 H2].
  destruct k as [|k]; [|now apply IH].
  destruct (startswith old (String c s)); simpl.
  - now apply IH.
  - rewrite H1; simpl. now apply IH.
Qed.

(** After [replace("*", "")] no star is left. *)
Lemma delete_star_clean (s : string) :
  all_chars (not_char "*") (replace "*" "" s) = true.
Proof.
  unfold replace. induction s as [|c s IH]; [reflexivity|].
  cbn [replace_go]. unfold startswith.
  destruct (Ascii.eqb "*" c) eqn:E; simpl.
  - exact IH.
  - unfold not_char at 1. rewrite E; simpl. exact IH.
Qed.

(** A pattern whose first character does not occur is never replaced. *)
Lemma replace_absent (x : ascii) (old new s : string) :
  all_chars (not_char x) s = true ->
  replace (String x old) new s = s.
Proof.
  unfold replace. induction s as [|c s IH]; [reflexivity|].
  intros H. simpl in H. apply andb_true_iff in H as [H1 H2].
  cbn [replace_go startswith].
  unfold not_char in H1. apply negb_true_iff in H1. rewrite H1; simpl.
  f_equal. now apply IH.
Qed.

Lemma lstrip_shrinks (p : ascii -> bool) (s : string) :
  lstrip_by p s = s \/ String.length (lstrip_by p s) < String.length s.
Proof.
  induction s as [|c s IH]; simpl; [now left|].
  destruct (p c); [|now left].
  right. destruct IH as [-> | IH]; lia.
Qed.

Lemma rstrip_shrinks (p : ascii -> bool) (s : string) :
  rstrip_by p s = s \/ String.length (rstrip_by p s) < String.length s.
Proof.
  induction s as [|c s IH]; simpl; [now left|].
  destruct (rstrip_by p s) as [|x t].
  - destruct (p c); simpl; [right; lia|].
    destruct IH as [<- | IH]; [now left | right; simpl in *; lia].
  - destruct IH as [<- | IH]; [now left | right; simpl in *; lia].
Qed.

Lemma trimmed_sides (s : string) :
  trimmed s = true ->
  lstrip_by isspace s = s /\ rstrip_by isspace s = s.
Proof.
  unfold trimmed, strip. intros H. apply String.eqb_eq in H.
  destruct (lstrip_shrinks isspace s) as [E | L].
  - rewrite E in H. auto.
  - exfalso.
    destruct (rstrip_shrinks isspace (lstrip_by isspace s)) as [E | L'].
    + rewrite E in H. rewrite H in L. lia.
    + rewrite H in L'. lia.
Qed.

Lemma last_char_app (a : string) (c : ascii) :
  last_char (a ++ String c "") = Some c.
Proof.
  induction a as [|x a IH]; [reflexivity|].
  change (String x a ++ String c "") with (String x (a ++ String c "")).
  cbn [last_char]. rewrite IH.
  destruct a; reflexivity.
Qed.

(** Nothing is stripped on the right of a text whose last character is
    kept. *)
Lemma rstrip_keep (p : ascii -> bool) (s : string) :
  match last_char s with Some c => p c = false | None => True end ->
  rstrip_by p s = s.
Proof.
  induction s as [|c s IH]; [reflexivity|].
  cbn [last_char rstrip_by]. destruct s as [|x s].
  - intros ->. reflexivity.
  - intros H. now rewrite (IH H).
Qed.

Lemma rstrip_drop_last (p : ascii -> bool) (a : string) (c : ascii) :
  p c = true -> rstrip_by p (a ++ String c "") = rstrip_by p a.
Proof.
  intros Hc. induction a as [|x a IH]; simpl.
  - now rewrite Hc.
  - now rewrite IH.
Qed.

Lemma startswith_take (p s : string) (n : nat) :
  startswith p (take n s) = true -> startswith p s = true.
Proof.
  revert s n; induction p as [|a p IH]; intros s n H; [reflexivity|].
  destruct n as [|n], s as [|b s]; simpl in H; try discriminate.
  apply andb_true_iff in H as [H1 H2].
  simpl. rewrite H1; simpl. now apply (IH s n).
Qed.

(** What is found in a prefix of the text is found in the text. *)
Lemma index_of_take (sub s : string) (n j : nat) :
  index_of sub (take n s) = Some j ->
  exists j', index_of sub s = Some j'.
Proof.
  revert n j; induction s as [|c s IH]; intros n j H.
  - destruct n; simpl in H; eauto.
  - destruct n as [|n].
    + simpl in H. destruct sub; [|discriminate]. now exists 0.
    + simpl take in H. rewrite index_of_cons in H. rewrite index_of_cons.
      destruct (startswith sub (String c (take n s))) eqn:E.
      * change (String c (take n s)) with (take (S n) (String c s)) in E.
        apply startswith_take in E. rewrite E. now exists 0.
      * destruct (startswith sub (String c s)); [now exists 0|].
        destruct (index_of sub (take n s)) as [k|] eqn:Ek; [|discriminate].
        destruct (IH n k Ek) as [j' ->]. now exists (S j').
Qed.

Lemma split_go_nonempty (sep s : string) (k : nat) :
  exists h t, split_go sep s k = h :: t.
Proof.
  revert k; induction s as [|c s IH]; intros k; simpl; [eauto|].
  destruct k as [|k]; [|apply IH].
  destruct (startswith sep (String c s)); [eauto|].
  destruct (IH 0) as [h [t ->]]. simpl. eauto.
Qed.

End StringFacts.

(* ===================================================================== *)
(** ** Facts about the loop *)
(* ===================================================================== *)

Section LoopFacts.

Context {A B : Type} (f : nat -> A -> result B).

Let step : nat * A -> result B := fun '(i, x) => f i x.

(** A loop that ends normally has run the body once on every element, in
    order. *)
Lemma for_each_enum_Ok (l : list A) (a : nat) (ys : list B) :
  for_each step (combine (seq a (length l)) l) = Ok ys ->
  length ys = length l /\
  forall k x, nth_error l k = Some x ->
              exists y, nth_error ys k = Some y /\ f (a + k) x = Ok y.
Proof.
  revert a ys; induction l as [|x0 l IH]; intros a ys H; simpl in H.
  - injection H as <-. split; [reflexivity|].
    intros [|k] x Hk; discriminate.
  - unfold bind in H. destruct (f a x0) as [y0|e] eqn:E0; [|discriminate].
    destruct (for_each step (combine (seq (S a) (length l)) l))
      as [ys'|e] eqn:E1; [|discriminate].
    injection H as <-. destruct (IH _ _ E1) as [Hlen Hnth].
    split; [simpl; congruence|].
    intros [|k] x Hk; simpl in Hk.
    + injection Hk as <-. exists y0. rewrite Nat.add_0_r. auto.
    + destruct (Hnth k x Hk) as [y [H1 H2]].
      exists y. split; [exact H1|].
      now replace (a + S k) with (S a + k) by lia.
Qed.

(** The loop ends normally when the body does on every element. *)
Lemma for_each_enum_total (l : list A) (a : nat) :
  (forall k x, nth_error l k = Some x -> exists y, f (a + k) x = Ok y) ->
  exists ys, for_each step (combine (seq a (length l)) l) = Ok ys.
Proof.
  revert a; induction l as [|x0 l IH]; intros a H; simpl.
  - now exists [].
  - destruct (H 0 x0 eq_refl) as [y0 E0].
    rewrite Nat.add_0_r in E0. rewrite E0. simpl.
    destruct (IH (S a)) as [ys E1].
    + intros k x Hk. destruct (H (S k) x Hk) as [y Hy].
      exists y. now replace (S a + k) with (a + S k) by lia.
    + rewrite E1. simpl. now exists (y0 :: ys).
Qed.

(** One element on which the body raises makes the loop raise. *)
Lemma for_each_enum_Raise (l : list A) (a : nat) (x : A) :
  In x l -> (forall i, exists e, f i x = Raise e) ->
  exists e, for_each step (combine (seq a (length l)) l) = Raise e.
Proof.
  intros Hin Hx. revert a; induction l as [|x0 l IH]; intros a.
  - contradiction.
  - simpl. destruct (f a x0) as [y0|e] eqn:E0; simpl.
    + destruct Hin as [-> | Hin].
      * destruct (Hx a) as [e He]. congruence.
      * destruct (IH Hin (S a)) as [e He]. rewrite He. simpl. now exists e.
    + now exists e.
Qed.

End LoopFacts.

Section ParserFacts.

Lemma marker_nonempty : MARKER <> "".
Proof. discriminate. Qed.

(** What the decoder returns, told by the positions of the marker and of
    the separator. *)
Lemma decode_item_spec (item : string) :
  decode_item item =
  match index_of ". " (name_segment item), likelihood_segment item with
  | Some j, Some seg =>
      Ok (strip (drop (j + 2) (name_segment item)),
          strip (rstrip_char ")" seg))
  | _, _ => Raise IndexError
  end.
Proof.
  unfold decode_item, name_segment, likelihood_segment.
  rewrite (split_unfold MARKER item marker_nonempty).
  destruct (index_of MARKER item) as [i|].
  - rewrite (split_unfold MARKER (drop _ item) marker_nonempty).
    unfold getitem at 1. cbn [nth_error bind].
    unfold split1.
    destruct (index_of ". " (take i item)) as [j|]; cbn.
    + match goal with
      | |- context [index_of MARKER ?x] => destruct (index_of MARKER x)
      end; reflexivity.
    + reflexivity.
  - unfold getitem at 1. cbn [nth_error bind].
    unfold split1. destruct (index_of ". " item); reflexivity.
Qed.

Lemma malformed_raises (item : string) :
  malformed item = true -> decode_item item = Raise IndexError.
Proof.
  unfold malformed, contains. intros H. rewrite decode_item_spec.
  unfold likelihood_segment.
  destruct (index_of ". " (name_segment item)); [|reflexivity].
  destruct (index_of MARKER item); [discriminate | reflexivity].
Qed.

Lemma decodes_not_malformed (item : string) :
  decodes item = true -> malformed item = false.
Proof.
  unfold decodes. intros H. destruct (malformed item) eqn:E; [|reflexivity].
  now rewrite (malformed_raises item E) in H.
Qed.

Lemma rr_of_body (j : json) :
  rr j = Ok match rr_body j with Ok recs => recs | Raise _ => [] end.
Proof.
  unfold rr, try_except. destruct (rr_body j) as [recs|e]; [reflexivity|].
  now destruct e.
Qed.

Lemma rr_body_payload (d r : string) :
  rr_body (payload d r) = rr_loop (JStr r) (diagnosis_items_of d).
Proof. reflexivity. Qed.

(** The body ends normally only on a payload with a string diagnosis. *)
Lemma rr_body_Ok (j : json) (recs : list DiagnosisRecord) :
  rr_body j = Ok recs ->
  exists d rt, fields j = Ok (JStr d, rt) /\
               rr_loop rt (diagnosis_items_of d) = Ok recs.
Proof.
  unfold rr_body. destruct (fields j) as [[dt rt]|e]; [|discriminate].
  cbn [bind]. destruct dt; try discriminate.
  cbn [str_method bind]. intros H. eauto.
Qed.

(** Each record of a normal run comes from the line at its position. *)
Lemma rr_loop_Ok (rt : json) (items : list string)
      (recs : list DiagnosisRecord) :
  rr_loop rt items = Ok recs ->
  length recs = length items /\
  forall k item, nth_error items k = Some item ->
    exists nm lk span,
      decode_item item = Ok (nm, lk) /\
      locate rt items k nm = Ok span /\
      nth_error recs k = Some (mkRecord nm (normalize span) lk).
Proof.
  unfold rr_loop, enumerate. intros H.
  apply (for_each_enum_Ok (rr_item rt items)) in H as [Hlen Hnth].
  split; [exact Hlen|].
  intros k item Hk. destruct (Hnth k item Hk) as [rec [H1 H2]].
  simpl in H2. unfold rr_item in H2.
  destruct (decode_item item) as [[nm lk]|e] eqn:Ed; [|discriminate].
  cbn [bind] in H2.
  destruct (locate rt items k nm) as [span|e] eqn:El; [|discriminate].
  cbn [bind] in H2. injection H2 as <-.
  exists nm, lk, span. auto.
Qed.

Lemma name_segment_contains (sub item : string) :
  contains sub (name_segment item) = true -> contains sub item = true.
Proof.
  unfold contains, name_segment.
  destruct (index_of MARKER item) as [i|]; [|trivial].
  destruct (index_of sub (take i item)) as [j|] eqn:E; [|discriminate].
  destruct (index_of_take _ _ _ _ E) as [j' ->]. reflexivity.
Qed.

(** The heading of the following item can be built when that item
    decodes. *)
Lemma next_heading_total (items : list string) (i : nat) (nxt : string) :
  nth_error items (i + 1) = Some nxt -> decodes nxt = true ->
  exists h, next_heading items i = Ok h.
Proof.
  intros Hn Hd. unfold next_heading, getitem at 1. rewrite Hn. cbn [bind].
  apply decodes_not_malformed in Hd. unfold malformed in Hd.
  apply orb_false_iff in Hd as [_ Hd]. apply negb_false_iff in Hd.
  apply name_segment_contains in Hd. unfold contains in Hd.
  unfold split1. destruct (index_of ". " nxt) as [j|]; [|discriminate].
  cbn [getitem nth_error bind].
  unfold split.
  destruct (split_go_nonempty "(Likelihood:"
              (drop (j + String.length ". ") nxt) 0) as [h [t ->]].
  cbn. eauto.
Qed.

Lemma locate_total (r : string) (items : list string) (i : nat)
      (nm : string) :
  forallb decodes items = true ->
  exists span, locate (JStr r) items i nm = Ok span.
Proof.
  intros Hall. unfold locate.
  destruct (i <? length items - 1)%nat eqn:Ei.
  - apply Nat.ltb_lt in Ei.
    destruct (nth_error items (i + 1)) as [nxt|] eqn:En.
    + assert (Hd : decodes nxt = true).
      { rewrite forallb_forall in Hall. apply Hall.
        eapply nth_error_In; eauto. }
      destruct (next_heading_total items i nxt En Hd) as [h ->].
      cbn [bind str_method].
      match goal with |- context [if ?b then _ else _] => destruct b end;
        eauto.
    + apply nth_error_None in En. lia.
  - cbn [bind str_method].
    match goal with |- context [if ?b then _ else _] => destruct b end;
      eauto.
Qed.

(** When every line decodes the loop ends normally. *)
Lemma rr_loop_total (r : string) (items : list string) :
  forallb decodes items = true ->
  exists recs, rr_loop (JStr r) items = Ok recs.
Proof.
  intros Hall. unfold rr_loop, enumerate.
  apply (for_each_enum_total (rr_item (JStr r) items)).
  intros k item Hk. simpl. unfold rr_item.
  assert (Hd : decodes item = true).
  { rewrite forallb_forall in Hall. apply Hall.
    eapply nth_error_In; eauto. }
  unfold decodes in Hd.
  destruct (decode_item item) as [[nm lk]|e]; [|discriminate].
  cbn [bind].
  destruct (locate_total r items k nm Hall) as [span ->].
  cbn [bind]. eauto.
Qed.

(** One malformed line makes the body raise. *)
Lemma rr_loop_malformed (rt : json) (items : list string) :
  forallb decodes items = false ->
  exists e, rr_loop rt items = Raise e.
Proof.
  intros H.
  assert (Hex : exists item, In item items /\ decodes item = false).
  { induction items as [|x l IH]; [discriminate|].
    simpl in H. apply andb_false_iff in H as [H | H].
    - exists x. simpl. auto.
    - destruct (IH H) as [item [Hin Hd]]. exists item. simpl. auto. }
  destruct Hex as [item [Hin Hd]].
  unfold rr_loop, enumerate.
  apply (for_each_enum_Raise (rr_item rt items) items 0 item Hin).
  intros i. unfold rr_item. unfold decodes in Hd.
  destruct (decode_item item) as [?|e]; [discriminate|].
  cbn [bind]. eauto.
Qed.

End ParserFacts.

Section ListFacts.

Context {A B : Type} (R : A -> B -> Prop).

Lemma Forall2_by_position (l : list A) (ys : list B) :
  length ys = length l ->
  (forall k x, nth_error l k = Some x ->
               exists y, nth_error ys k = Some y /\ R x y) ->
  Forall2 R l ys.
Proof.
  revert ys; induction l as [|x l IH]; intros [|y ys] Hlen H;
    try discriminate; constructor.
  - destruct (H 0 x eq_refl) as [y' [E Hy]]. now injection E as <-.
  - apply IH; [simpl in Hlen; lia|].
    intros k x' Hk. apply (H (S k) x' Hk).
Qed.

End ListFacts.

(* ===================================================================== *)
(** ** The properties of the specification *)
(* ===================================================================== *)

(** C5: on the two-line influenza and common cold input of the
    specification, the parser returns the two records given there, in that
    order. *)
Theorem rr_influenza_scenario :
  rr_text influenza_diagnosis influenza_rationale =
  Ok [mkRecord "Influenza" "Clinical signs include fever and cough." "High";
      mkRecord "Common Cold" "Clinical signs are mild congestion." "Low"].
Proof. vm_compute. reflexivity. Qed.

(** C3: whatever value [rr] is given, no exception leaves it: it returns
    the list its body built, or the empty list when the body raised. *)
Theorem rr_catches_everything (j : json) :
  exists recs,
    rr j = Ok recs /\
    (rr_body j = Ok recs \/ (exists e, rr_body j = Raise e) /\ recs = []).
Proof.
  rewrite rr_of_body. destruct (rr_body j) as [recs|e].
  - exists recs. auto.
  - exists []. split; [reflexivity|]. right. eauto.
Qed.

(** C9: the list [rr] returns is empty, or it has one record for each
    non-empty line of the diagnosis text, in order, each decoded from its
    line; a line that fails to decode empties the whole result. *)
Theorem rr_all_or_nothing (j : json) :
  exists recs,
    rr j = Ok recs /\
    (recs = [] \/
     exists d rt,
       fields j = Ok (JStr d, rt) /\
       length recs = length (diagnosis_items_of d) /\
       Forall2 (fun item rec => decode_item item = Ok (name_and_likelihood rec))
               (diagnosis_items_of d) recs) /\
    (forall d rt,
       fields j = Ok (JStr d, rt) ->
       forallb decodes (diagnosis_items_of d) = false -> recs = []).
Proof.
  rewrite rr_of_body. destruct (rr_body j) as [recs|e] eqn:E.
  - exists recs. split; [reflexivity|].
    destruct (rr_body_Ok j recs E) as [d [rt [Hf Hl]]].
    destruct (rr_loop_Ok rt _ recs Hl) as [Hlen Hnth].
    split.
    + right. exists d, rt. repeat split; auto.
      apply Forall2_by_position; [exact Hlen|].
      intros k item Hk.
      destruct (Hnth k item Hk) as [nm [lk [span [H1 [_ H3]]]]].
      eexists. split; [exact H3 | exact H1].
    + intros d' rt' Hf' Hbad. rewrite Hf in Hf'. injection Hf' as <- <-.
      destruct (rr_loop_malformed rt _ Hbad) as [e He]. congruence.
  - exists []. auto.
Qed.

(** C2, as the code has it: a line that lacks the likelihood marker, or
    the ordinal separator before it, is not skipped; it makes the parser
    return the empty list, whatever the other lines are. *)
Theorem malformed_line_empties_result (d r : string) :
  existsb malformed (diagnosis_items_of d) = true ->
  rr_text d r = Ok [].
Proof.
  intros H. unfold rr_text. rewrite rr_of_body, rr_body_payload.
  destruct (rr_loop_malformed (JStr r) (diagnosis_items_of d)) as [e ->];
    [|reflexivity].
  apply existsb_exists in H as [item [Hin Hm]].
  destruct (forallb decodes (diagnosis_items_of d)) eqn:E; [|reflexivity].
  rewrite forallb_forall in E. specialize (E item Hin).
  apply decodes_not_malformed in E. congruence.
Qed.

Lemma malformed_line_empties_result_witness :
  rr_text ("1. Influenza (Likelihood: High)" ++ LF ++ "2. Common Cold")
          influenza_rationale = Ok [].
Proof.
  apply malformed_line_empties_result. vm_compute. reflexivity.
Defined.

(** C2 fails as stated: of three valid lines and one line without the
    marker, no record is returned. *)
Lemma three_valid_one_malformed_gives_none :
  map malformed (diagnosis_items_of three_valid_one_malformed)
  = [false; true; false; false] /\
  rr_text three_valid_one_malformed three_valid_rationale = Ok [].
Proof. vm_compute. split; reflexivity. Qed.

(** C4 at a rationale without ["Clinical"]: the cleaned text
    ["Fever and cough."] is not replaced by the empty string, its last
    character is kept. *)
Theorem rationale_without_clinical_keeps_last_char :
  rr_text "1. Flu (Likelihood: High)" "1. Flu Fever and cough."
  = Ok [mkRecord "Flu" "." "High"].
Proof. vm_compute. reflexivity. Qed.


(** C8, as the code has it: the likelihood is the text after the first
    marker, up to the next marker if there is one, without its closing
    parentheses at the end and then trimmed. *)
Theorem likelihood_is_stripped_segment (d r : string) :
  forallb decodes (diagnosis_items_of d) = true ->
  exists recs,
    rr_text d r = Ok recs /\
    Forall2 (fun item rec =>
               exists seg, likelihood_segment item = Some seg /\
                           likelihood rec = strip (rstrip_char ")" seg))
            (diagnosis_items_of d) recs.
Proof.
  intros Hall. unfold rr_text. rewrite rr_of_body, rr_body_payload.
  destruct (rr_loop_total r _ Hall) as [recs E]. rewrite E.
  exists recs. split; [reflexivity|].
  destruct (rr_loop_Ok _ _ _ E) as [Hlen Hnth].
  apply Forall2_by_position; [exact Hlen|].
  intros k item Hk.
  destruct (Hnth k item Hk) as [nm [lk [span [H1 [_ H3]]]]].
  eexists. split; [exact H3|]. simpl.
  rewrite decode_item_spec in H1.
  destruct (index_of ". " (name_segment item)); [|discriminate].
  destruct (likelihood_segment item) as [seg|]; [|discriminate].
  injection H1 as _ <-. eauto.
Qed.

(** C8 fails as stated: text after the closing parenthesis ends up in the
    likelihood. *)
Lemma likelihood_keeps_trailing_text :
  annotated_label "1. Flu (Likelihood: High) extra" = Some "High" /\
  rr_text "1. Flu (Likelihood: High) extra" flu_rationale
  = Ok [mkRecord "Flu" "Clinical picture fits." "High) extra"].
Proof. vm_compute. split; reflexivity. Qed.

(** C1 fails as stated: a label that ends with a closing parenthesis
    loses it. *)
Lemma closing_parenthesis_of_label_lost :
  headings_once parenthesised_label flu_rationale = true /\
  map label parenthesised_label = ["High (probable)"] /\
  rr_text (text_of_lines parenthesised_label) flu_rationale
  = Ok [mkRecord "Flu" "Clinical picture fits." "High (probable"].
Proof. vm_compute. repeat split; reflexivity. Qed.

(** C10 fails as stated: removing a star between two spaces leaves a run of
    two spaces. *)
Lemma star_removal_leaves_double_space :
  rr_text "1. Flu (Likelihood: High)" "1. Flu Clinical fever * cough"
  = Ok [mkRecord "Flu" "Clinical fever  cough" "High"] /\
  contains "  " "Clinical fever  cough" = true.
Proof. vm_compute. split; reflexivity. Qed.

Section NormalizerFacts.

Lemma join_cons_head (sep : string) (c : ascii) (w : string)
      (ws : list string) :
  join sep (String c w :: ws) = String c (join sep (w :: ws)).
Proof. destruct ws; reflexivity. Qed.

Lemma rstrip_tail (p : ascii -> bool) (c : ascii) (s : string) :
  rstrip_by p (String c s) = String c s -> rstrip_by p s = s.
Proof.
  cbn [rstrip_by]. destruct (rstrip_by p s) as [|x t] eqn:E.
  - destruct (p c); [discriminate|]. now injection 1 as <-.
  - now injection 1 as <-.
Qed.

Lemma no_double_space_tail (c : ascii) (s : string) :
  contains "  " (String c s) = false -> contains "  " s = false.
Proof.
  unfold contains. rewrite index_of_cons.
  destruct (startswith "  " (String c s)); [discriminate|].
  now destruct (index_of "  " s).
Qed.

Lemma no_double_space_head (c x : ascii) (s : string) :
  contains "  " (String c (String x s)) = false ->
  Ascii.eqb " " c && Ascii.eqb " " x = false.
Proof.
  unfold contains. rewrite index_of_cons. cbn [startswith].
  rewrite andb_true_r.
  destruct (Ascii.eqb " " c && Ascii.eqb " " x); [discriminate | reflexivity].
Qed.

(** Splitting a single-spaced text at white space and joining the words
    with one space gives the text back, up to spaces in front. *)
Lemma join_split_ws (s : string) :
  spaces_only s = true -> contains "  " s = false ->
  rstrip_by isspace s = s ->
  join " " (split_ws s) = lstrip_by isspace s /\
  (lstrip_by isspace s <> "" -> split_ws s <> []).
Proof.
  induction s as [|c s IH]; intros Hso Hnd Hr.
  - split; [reflexivity | intros H; now elim H].
  - pose proof Hso as Hso'. unfold spaces_only in Hso'.
    cbn [all_chars] in Hso'. apply andb_true_iff in Hso' as [Hc Hs].
    specialize (IH Hs (no_double_space_tail _ _ Hnd) (rstrip_tail _ _ _ Hr)).
    destruct IH as [IHj IHn].
    cbn [split_ws lstrip_by].
    destruct (isspace c) eqn:Ec; [exact (conj IHj IHn)|].
    destruct s as [|x s'].
    + split; [reflexivity | discriminate].
    + destruct (isspace x) eqn:Ex.
      * (* a space between two words *)
        apply andb_true_iff in Hs as [Hx Hs'].
        rewrite Ex in Hx. simpl in Hx. apply Ascii.eqb_eq in Hx. subst x.
        assert (Hl : lstrip_by isspace (String " " s') = s' /\ s' <> "").
        { cbn [lstrip_by]. rewrite Ex.
          destruct s' as [|y s''].
          - exfalso. apply rstrip_tail in Hr. vm_compute in Hr.
            discriminate.
          - split; [|discriminate]. cbn [lstrip_by].
            destruct (isspace y) eqn:Ey; [|reflexivity]. exfalso.
            cbn [all_chars] in Hs'. apply andb_true_iff in Hs' as [Hy _].
            simpl in Hy. apply Ascii.eqb_eq in Hy. subst y.
            apply no_double_space_tail, no_double_space_head in Hnd.
            discriminate. }
        destruct Hl as [Hl Hne]. rewrite Hl in IHj, IHn.
        split; [|discriminate].
        destruct (split_ws (String " " s')) as [|w ws];
          [now elim (IHn Hne)|].
        change (join " " (String c "" :: w :: ws))
          with (String c "" ++ " " ++ join " " (w :: ws)).
        rewrite IHj. reflexivity.
      * cbn [lstrip_by] in IHj, IHn. rewrite Ex in IHj, IHn.
        destruct (split_ws (String x s')) as [|w ws].
        { exfalso. apply IHn; [discriminate | reflexivity]. }
        cbn [cons_head]. rewrite join_cons_head, IHj.
        split; [reflexivity | discriminate].
Qed.

Lemma find_at_start (sub s : string) :
  startswith sub s = true -> find s sub = 0%Z.
Proof.
  intros H. unfold find.
  destruct s; simpl; rewrite H; reflexivity.
Qed.

Lemma slice_from_zero (s : string) : slice_from s 0 = s.
Proof.
  unfold slice_from, clip. simpl.
  replace (Z.to_nat _) with 0 by lia. reflexivity.
Qed.

End NormalizerFacts.

(** C7: a text without stars, whose white space is single spaces only and
    none at either end, and which starts with ["Clinical"], is left
    unchanged by the clean-up. *)
Theorem normalize_keeps_normalized (s : string) :
  all_chars (not_char "*") s = true ->
  spaces_only s = true ->
  contains "  " s = false ->
  trimmed s = true ->
  startswith "Clinical" s = true ->
  normalize s = s.
Proof.
  intros Hstar Hso Hnd Htr Hcl.
  pose proof Htr as Hstrip. unfold trimmed in Hstrip.
  apply String.eqb_eq in Hstrip.
  destruct (trimmed_sides s Htr) as [Hl Hr].
  unfold normalize.
  rewrite (replace_absent "*" _ "" s Hstar), Hstrip.
  rewrite (replace_absent "*" _ "" s Hstar), Hstrip.
  destruct (join_split_ws s Hso Hnd Hr) as [Hj _].
  rewrite Hj, Hl.
  rewrite (replace_absent "*" "" "" s Hstar), Hstrip.
  rewrite (find_at_start _ _ Hcl). apply slice_from_zero.
Qed.

Lemma normalize_keeps_normalized_witness :
  normalize "Clinical signs include fever and cough."
  = "Clinical signs include fever and cough.".
Proof.
  apply normalize_keeps_normalized; vm_compute; reflexivity.
Defined.

Section InvariantFacts.

Lemma clip_inside (len i : nat) : i <= len -> clip len (Z.of_nat i) = i.
Proof.
  intros H. unfold clip. cbv zeta.
  destruct (Z.ltb_spec (Z.of_nat i) 0); lia.
Qed.

Lemma clip_minus_one (len : nat) : clip len (-1) = len - 1.
Proof.
  unfold clip. cbv zeta. change (-1 <? 0)%Z with true. cbv iota. lia.
Qed.

(** The words of [split_ws] keep the characters of the text and hold no
    white space. *)
Lemma split_ws_words (q : ascii -> bool) (s : string) :
  all_chars q s = true ->
  Forall (fun w => all_chars (fun c => q c && negb (isspace c)) w = true)
         (split_ws s).
Proof.
  induction s as [|c s IH]; intros H; [constructor|].
  cbn [all_chars] in H. apply andb_true_iff in H as [Hc Hs].
  specialize (IH Hs). cbn [split_ws].
  destruct (isspace c) eqn:Ec; [exact IH|].
  assert (Hw : forall w,
             all_chars (fun c => q c && negb (isspace c)) w = true ->
             all_chars (fun c => q c && negb (isspace c)) (String c w)
             = true).
  { intros w Hw. cbn [all_chars]. now rewrite Hc, Ec, Hw. }
  destruct s as [|x s'].
  - constructor; [now apply Hw | constructor].
  - destruct (isspace x).
    + constructor; [now apply Hw | exact IH].
    + destruct (split_ws (String x s')) as [|w ws]; cbn [cons_head].
      * constructor; [now apply Hw | constructor].
      * inversion IH; subst. constructor; [now apply Hw | assumption].
Qed.

Lemma all_chars_join (q : ascii -> bool) (ws : list string) :
  q " "%char = true ->
  Forall (fun w => all_chars q w = true) ws ->
  all_chars q (join " " ws) = true.
Proof.
  intros Hsp H. induction H as [|w ws Hw Hws IH]; [reflexivity|].
  destruct ws as [|w' ws']; [exact Hw|].
  change (join " " (w :: w' :: ws'))
    with (w ++ " " ++ join " " (w' :: ws')).
  rewrite !all_chars_app, Hw, IH. cbn [all_chars]. now rewrite Hsp.
Qed.

Lemma Forall_all_chars_impl (p q : ascii -> bool) (ws : list string) :
  (forall c, p c = true -> q c = true) ->
  Forall (fun w => all_chars p w = true) ws ->
  Forall (fun w => all_chars q w = true) ws.
Proof.
  intros Hpq H. induction H; constructor; auto.
  eapply all_chars_impl; eauto.
Qed.

(** Collapsing white space keeps a property of the characters that the
    space has too. *)
Lemma all_chars_collapse (q : ascii -> bool) (s : string) :
  q " "%char = true -> all_chars q s = true ->
  all_chars q (join " " (split_ws s)) = true.
Proof.
  intros Hsp H. apply all_chars_join; [exact Hsp|].
  apply (Forall_all_chars_impl (fun c => q c && negb (isspace c))).
  - intros c Hc. now apply andb_true_iff in Hc as [Hc _].
  - now apply split_ws_words.
Qed.

Lemma spaces_only_collapse (s : string) :
  spaces_only (join " " (split_ws s)) = true.
Proof.
  unfold spaces_only. apply all_chars_join; [reflexivity|].
  apply (Forall_all_chars_impl (fun c => true && negb (isspace c))).
  - intros c Hc. simpl in Hc. now rewrite Hc.
  - apply (split_ws_words (fun _ => true)).
    induction s; simpl; auto.
Qed.

(** What the cut at ["Clinical"] leaves. *)
Lemma cut_at_clinical (s : string) :
  clinical_or_short (slice_from s (find s "Clinical")) = true.
Proof.
  unfold clinical_or_short, slice_from, find.
  destruct (index_of "Clinical" s) as [i|] eqn:E.
  - destruct (index_of_Some _ _ _ E) as [H1 H2].
    rewrite clip_inside by exact H2. rewrite H1. apply orb_true_r.
  - rewrite clip_minus_one, length_drop.
    apply orb_true_iff. left. apply Nat.leb_le. lia.
Qed.

Lemma normalize_invariants (span : string) :
  all_chars (not_char "*") (normalize span) = true /\
  spaces_only (normalize span) = true /\
  clinical_or_short (normalize span) = true.
Proof.
  unfold normalize. repeat split.
  - unfold slice_from. apply all_chars_drop, all_chars_strip.
    apply delete_star_clean.
  - unfold spaces_only, slice_from.
    apply all_chars_drop, all_chars_strip, all_chars_delete.
    apply spaces_only_collapse.
  - apply cut_at_clinical.
Qed.

End InvariantFacts.

Section SpacingFacts.

Lemma space_is_space (c : ascii) :
  isspace c = false -> Ascii.eqb " " c = false.
Proof.
  intros H. destruct (Ascii.eqb_spec " " c) as [<-|]; [|reflexivity].
  discriminate H.
Qed.

Lemma contains_after_clean (c : ascii) (s : string) :
  isspace c = false ->
  contains "  " (String c s) = contains "  " s.
Proof.
  intros H. unfold contains. rewrite index_of_cons. cbn [startswith].
  rewrite (space_is_space c H). cbn [andb].
  now destruct (index_of "  " s).
Qed.

Lemma contains_after_space (s : string) :
  starts_clean s ->
  contains "  " (String " " s) = contains "  " s.
Proof.
  intros H. unfold contains. rewrite index_of_cons.
  assert (E : startswith "  " (String " " s) = false).
  { destruct s as [|y s]; [reflexivity|]. simpl in H.
    cbn [startswith]. rewrite (space_is_space y H). reflexivity. }
  rewrite E. now destruct (index_of "  " s).
Qed.

(** After collapsing, no two spaces stand side by side and none stands in
    front. *)
Lemma collapse_single_spaced (s : string) :
  contains "  " (join " " (split_ws s)) = false /\
  starts_clean (join " " (split_ws s)).
Proof.
  induction s as [|c s IH]; [split; [reflexivity | exact I]|].
  cbn [split_ws]. destruct (isspace c) eqn:Ec; [exact IH|].
  assert (One : contains "  " (String c "") = false /\
                starts_clean (String c "")).
  { split; [|exact Ec]. rewrite contains_after_clean by exact Ec.
    reflexivity. }
  destruct s as [|x s']; [exact One|].
  destruct IH as [IHc IHs].
  destruct (isspace x) eqn:Ex.
  - destruct (split_ws (String x s')) as [|w ws]; [exact One|].
    change (join " " (String c "" :: w :: ws))
      with (String c (String " " (join " " (w :: ws)))).
    split; [|exact Ec].
    rewrite contains_after_clean by exact Ec.
    rewrite contains_after_space by exact IHs. exact IHc.
  - destruct (split_ws (String x s')) as [|w ws]; [exact One|].
    cbn [cons_head]. rewrite join_cons_head.
    split; [|exact Ec].
    rewrite contains_after_clean by exact Ec. exact IHc.
Qed.

Lemma contains_tail (sub : string) (c : ascii) (s : string) :
  contains sub (String c s) = false -> contains sub s = false.
Proof.
  unfold contains. rewrite index_of_cons.
  destruct (startswith sub (String c s)); [discriminate|].
  now destruct (index_of sub s).
Qed.

Lemma contains_drop (sub : string) (n : nat) (s : string) :
  contains sub s = false -> contains sub (drop n s) = false.
Proof.
  revert s; induction n as [|n IH]; intros [|c s] H; simpl; auto.
  apply IH. eapply contains_tail; eauto.
Qed.

Lemma contains_take (sub : string) (n : nat) (s : string) :
  contains sub s = false -> contains sub (take n s) = false.
Proof.
  unfold contains. intros H.
  destruct (index_of sub (take n s)) as [j|] eqn:E; [|reflexivity].
  destruct (index_of_take _ _ _ _ E) as [j' E']. now rewrite E' in H.
Qed.

Lemma lstrip_is_drop (p : ascii -> bool) (s : string) :
  exists k, lstrip_by p s = drop k s.
Proof.
  induction s as [|c s [k IH]]; [now exists 0|].
  simpl. destruct (p c); [now exists (S k) | now exists 0].
Qed.

Lemma rstrip_is_take (p : ascii -> bool) (s : string) :
  exists k, rstrip_by p s = take k s.
Proof.
  induction s as [|c s [k IH]]; [now exists 0|].
  cbn [rstrip_by]. rewrite IH.
  destruct (take k s) eqn:E.
  - destruct (p c); [now exists 0 | now exists 1].
  - exists (S k). simpl. now rewrite E.
Qed.

Lemma contains_strip (sub s : string) :
  contains sub s = false -> contains sub (strip s) = false.
Proof.
  intros H. unfold strip.
  destruct (lstrip_is_drop isspace s) as [k ->].
  destruct (rstrip_is_take isspace (drop k s)) as [m ->].
  now apply contains_take, contains_drop.
Qed.

(** On a span without stars the clean-up leaves single spaces only. *)
Lemma normalize_single_spaced (span : string) :
  all_chars (not_char "*") span = true ->
  contains "  " (normalize span) = false.
Proof.
  intros H. unfold normalize.
  rewrite (replace_absent "*" _ "" span H).
  pose proof (all_chars_strip _ _ H) as H1.
  rewrite (replace_absent "*" _ "" _ H1).
  pose proof (all_chars_strip _ _ H1) as H2.
  pose proof (all_chars_collapse (not_char "*") _ eq_refl H2) as H3.
  rewrite (replace_absent "*" "" "" _ H3).
  unfold slice_from. apply contains_drop, contains_strip.
  apply collapse_single_spaced.
Qed.

(** A located span is cut out of the rationale text. *)
Lemma locate_chars (q : ascii -> bool) (r : string) (items : list string)
      (i : nat) (nm span : string) :
  locate (JStr r) items i nm = Ok span ->
  all_chars q r = true -> all_chars q span = true.
Proof.
  unfold locate. intros H Hr.
  destruct (i <? length items - 1)%nat.
  - destruct (next_heading items i) as [h|e]; [|discriminate].
    cbn [bind str_method] in H.
    match type of H with
    | (if ?b then _ else _) = _ => destruct b
    end; injection H as <-; [|reflexivity].
    unfold slice. now apply all_chars_strip, all_chars_take, all_chars_drop.
  - cbn [bind str_method] in H.
    match type of H with
    | (if ?b then _ else _) = _ => destruct b
    end; injection H as <-; [|reflexivity].
    unfold slice_from. now apply all_chars_strip, all_chars_drop.
Qed.

End SpacingFacts.

(** C10, as the code has it: in every record returned by [rr] the
    rationale has no star, its white space is made of plain spaces, and it
    is empty, one character long, or begins with ["Clinical"]; no two
    spaces stand side by side when the rationale text has no star. *)
Theorem rationale_invariants (j : json) (recs : list DiagnosisRecord)
        (rec : DiagnosisRecord) :
  rr j = Ok recs -> In rec recs ->
  all_chars (not_char "*") (rationale rec) = true /\
  spaces_only (rationale rec) = true /\
  clinical_or_short (rationale rec) = true /\
  (forall d r,
     fields j = Ok (d, JStr r) -> all_chars (not_char "*") r = true ->
     contains "  " (rationale rec) = false).
Proof.
  rewrite rr_of_body. intros H Hin. injection H as H.
  destruct (rr_body j) as [recs'|e] eqn:E; subst recs; [|contradiction].
  destruct (rr_body_Ok j recs' E) as [d [rt [Hf Hl]]].
  destruct (rr_loop_Ok rt _ recs' Hl) as [Hlen Hnth].
  apply In_nth_error in Hin as [k Hk].
  assert (Hk' : k < length (diagnosis_items_of d)).
  { rewrite <- Hlen. apply nth_error_Some. congruence. }
  destruct (nth_error (diagnosis_items_of d) k) as [item|] eqn:Ei;
    [|apply nth_error_None in Ei; lia].
  destruct (Hnth k item Ei) as [nm [lk [span [_ [Hloc Hrec]]]]].
  rewrite Hk in Hrec. injection Hrec as ->. cbn [rationale].
  destruct (normalize_invariants span) as [I1 [I2 I3]].
  repeat split; auto.
  intros d' r Hf' Hr. rewrite Hf in Hf'. injection Hf' as <- ->.
  apply normalize_single_spaced.
  eapply locate_chars; eauto.
Qed.

Lemma rationale_invariants_witness :
  all_chars (not_char "*") "Clinical signs are mild congestion." = true /\
  spaces_only "Clinical signs are mild congestion." = true /\
  clinical_or_short "Clinical signs are mild congestion." = true.
Proof.
  destruct (rationale_invariants
              (payload influenza_diagnosis influenza_rationale)
              [mkRecord "Influenza" "Clinical signs include fever and cough."
                        "High";
               mkRecord "Common Cold" "Clinical signs are mild congestion."
                        "Low"]
              (mkRecord "Common Cold" "Clinical signs are mild congestion."
                        "Low"))
    as [H1 [H2 [H3 _]]].
  - vm_compute. reflexivity.
  - simpl. right. left. reflexivity.
  - simpl in H1, H2, H3. auto.
Defined.

Section LineFacts.

Lemma suffix_first (q : ascii -> bool) (a u t : string) :
  a = u ++ t -> t <> "" -> all_chars q a = true ->
  exists c t', t = String c t' /\ q c = true.
Proof.
  intros -> Ht H. rewrite all_chars_app in H.
  apply andb_true_iff in H as [_ H].
  destruct t as [|c t']; [congruence|].
  cbn [all_chars] in H. apply andb_true_iff in H as [H _]. eauto.
Qed.

Lemma suffix_contains (sub u t : string) :
  startswith sub t = true -> contains sub (u ++ t) = true.
Proof.
  intros H. unfold contains. induction u as [|c u IH].
  - simpl. destruct t; simpl; now rewrite H.
  - change (String c u ++ t) with (String c (u ++ t)).
    rewrite index_of_cons.
    destruct (startswith sub (String c (u ++ t))); [reflexivity|].
    now destruct (index_of sub (u ++ t)).
Qed.

Lemma index_of_after (sub a rest : string) (n : nat) :
  (forall u t, a = u ++ t -> t <> "" -> startswith sub (t ++ rest) = false) ->
  index_of sub rest = Some n ->
  index_of sub (a ++ rest) = Some (String.length a + n).
Proof. intros H E. now rewrite index_of_skip, E by exact H. Qed.

Lemma render_parts (l : Line) :
  render l =
  (ordinal l ++ ". " ++ name l ++ " ") ++ MARKER ++ (label l ++ ")").
Proof. unfold render. now rewrite !app_assoc. Qed.

Lemma render_closed (l : Line) :
  render l =
  (ordinal l ++ ". " ++ name l ++ " (Likelihood: " ++ label l) ++ ")".
Proof. unfold render. now rewrite !app_assoc. Qed.

(** A pattern that begins with a character other than a digit starts
    nowhere in a number. *)
Lemma digits_skip (x : ascii) (sub o rest : string) :
  all_chars is_digit o = true -> is_digit x = false ->
  forall u t, o = u ++ t -> t <> "" ->
              startswith (String x sub) (t ++ rest) = false.
Proof.
  intros Ho Hx u t E Ht.
  destruct (suffix_first _ _ _ _ E Ht Ho) as [c [t' [-> Hc]]].
  change (String c t' ++ rest) with (String c (t' ++ rest)).
  cbn [startswith].
  destruct (Ascii.eqb_spec x c) as [<-|]; [congruence | reflexivity].
Qed.

Variable l : Line.
Hypothesis Hplain : plain_line l = true.

Lemma plain_facts :
  ordinal l <> "" /\ all_chars is_digit (ordinal l) = true /\
  trimmed (name l) = true /\ all_chars (not_char "010") (name l) = true /\
  contains "(Likelihood:" (name l) = false /\
  trimmed (label l) = true /\ all_chars (not_char "010") (label l) = true /\
  contains MARKER (label l) = false /\ ends_with ")" (label l) = false.
Proof.
  pose proof Hplain as H. unfold plain_line in H.
  repeat (apply andb_true_iff in H as [H ?]).
  repeat match goal with
         | H : negb _ = true |- _ => apply negb_true_iff in H
         end.
  repeat split; auto.
  intros E. rewrite E in H. discriminate.
Qed.

(** The marker is first found where the line has it. *)
Lemma marker_position :
  index_of MARKER (render l) =
  Some (String.length (ordinal l ++ ". " ++ name l ++ " ")).
Proof.
  destruct plain_facts as [_ [Hd [_ [_ [Hn _]]]]].
  unfold render.
  rewrite !length_app.
  apply index_of_after;
    [apply digits_skip; [exact Hd | reflexivity]|].
  change (". " ++ name l ++ " (Likelihood: " ++ label l ++ ")")
    with (String "." (String " "
            (name l ++ " " ++ MARKER ++ label l ++ ")"))).
  rewrite !index_of_cons. cbn [startswith Ascii.eqb Bool.eqb andb].
  cbn [String.length Nat.add].
  rewrite (index_of_after MARKER (name l) _ 1).
  - cbn [option_map]. reflexivity.
  - intros u t E Ht.
    destruct (startswith MARKER (t ++ " " ++ MARKER ++ label l ++ ")"))
      eqn:S; [exfalso | reflexivity].
    apply (startswith_across "(Likelihood:" t _ " " eq_refl) in S.
    apply (suffix_contains _ u) in S. rewrite <- E in S. congruence.
  - change (" " ++ MARKER ++ label l ++ ")")
      with (String " " (MARKER ++ label l ++ ")")).
    rewrite index_of_cons. cbn [startswith Ascii.eqb Bool.eqb andb].
    change (index_of MARKER (MARKER ++ label l ++ ")")) with (Some 0).
    reflexivity.
Qed.

Lemma name_segment_render :
  name_segment (render l) = ordinal l ++ ". " ++ name l ++ " ".
Proof.
  unfold name_segment. rewrite marker_position.
  rewrite render_parts. apply take_app_length.
Qed.

Lemma separator_position :
  index_of ". " (ordinal l ++ ". " ++ name l ++ " ") =
  Some (String.length (ordinal l)).
Proof.
  destruct plain_facts as [_ [Hd _]].
  apply index_of_at. apply digits_skip; [exact Hd | reflexivity].
Qed.

Lemma strip_name_space : strip (name l ++ " ") = name l.
Proof.
  destruct plain_facts as [_ [_ [Ht _]]].
  destruct (trimmed_sides _ Ht) as [Hl Hr].
  unfold strip. destruct (name l) as [|c n] eqn:E; [reflexivity|].
  assert (Hc : isspace c = false).
  { simpl in Hl. destruct (isspace c); [|reflexivity].
    destruct (lstrip_shrinks isspace n) as [E' | L].
    - rewrite E' in Hl. exfalso. clear -Hl.
      assert (H : String.length n = String.length (String c n))
        by now rewrite <- Hl.
      simpl in H. lia.
    - rewrite Hl in L. simpl in L. lia. }
  change (String c n ++ " ") with (String c (n ++ " ")).
  cbn [lstrip_by]. rewrite Hc.
  change (String c (n ++ " ")) with (String c n ++ " ").
  rewrite rstrip_drop_last by reflexivity. exact Hr.
Qed.

Lemma likelihood_segment_render :
  likelihood_segment (render l) = Some (label l ++ ")").
Proof.
  destruct plain_facts as [_ [_ [_ [_ [_ [_ [_ [Hm _]]]]]]]].
  unfold likelihood_segment. rewrite marker_position. cbv zeta.
  rewrite render_parts.
  rewrite drop_add, drop_app_length.
  change (drop (String.length MARKER) (MARKER ++ label l ++ ")"))
    with (label l ++ ")").
  rewrite index_of_skip; [reflexivity|].
  intros u t E Ht.
  destruct (startswith MARKER (t ++ ")")) eqn:S; [exfalso | reflexivity].
  apply (startswith_before MARKER t "" ")" eq_refl) in S.
  apply (suffix_contains _ u) in S. rewrite <- E in S. congruence.
Qed.

Lemma strip_label_paren : strip (rstrip_char ")" (label l ++ ")")) = label l.
Proof.
  destruct plain_facts as [_ [_ [_ [_ [_ [Ht [_ [_ He]]]]]]]].
  unfold rstrip_char. rewrite rstrip_drop_last by reflexivity.
  rewrite rstrip_keep.
  - unfold trimmed in Ht. now apply String.eqb_eq in Ht.
  - unfold ends_with in He. destruct (last_char (label l)); auto.
Qed.

(** A plain line decodes to its name and its label. *)
Lemma decode_render : decode_item (render l) = Ok (name l, label l).
Proof.
  rewrite decode_item_spec, likelihood_segment_render, name_segment_render.
  rewrite separator_position.
  rewrite drop_add, drop_app_length.
  change (drop 2 (". " ++ name l ++ " ")) with (name l ++ " ").
  now rewrite strip_name_space, strip_label_paren.
Qed.

Lemma render_one_line : all_chars (not_char "010") (render l) = true.
Proof.
  destruct plain_facts as [_ [Hd [_ [Hn [_ [_ [Hl _]]]]]]].
  assert (Ho : all_chars (not_char "010") (ordinal l) = true).
  { apply (all_chars_impl is_digit); [|exact Hd].
    intros c Hc. unfold not_char.
    destruct (Ascii.eqb_spec "010" c) as [<-|];
      [discriminate Hc | reflexivity]. }
  unfold render. rewrite !all_chars_app, Hn, Hl, Ho. reflexivity.
Qed.

Lemma strip_render : strip (render l) = render l.
Proof.
  destruct plain_facts as [Ho [Hd _]].
  unfold strip.
  assert (Hl : lstrip_by isspace (render l) = render l).
  { unfold render. destruct (ordinal l) as [|c o]; [congruence|].
    cbn [all_chars] in Hd. apply andb_true_iff in Hd as [Hc _].
    change (String c o ++ ?x) with (String c (o ++ x)).
    cbn [lstrip_by].
    destruct (isspace c) eqn:E; [|reflexivity].
    exfalso. clear -Hc E. unfold is_digit in Hc. unfold isspace in E.
    cbv zeta in E.
    repeat match goal with
           | H : (_ && _)%bool = true |- _ => apply andb_true_iff in H as [? ?]
           | H : (_ || _)%bool = true |- _ => apply orb_true_iff in H as [? | ?]
           | H : (_ <=? _)%nat = true |- _ => apply Nat.leb_le in H
           | H : (_ =? _)%nat = true |- _ => apply Nat.eqb_eq in H
           end; lia. }
  rewrite Hl. rewrite render_closed. apply rstrip_keep.
  now rewrite last_char_app.
Qed.

Lemma render_nonblank : negb (String.eqb (strip (render l)) "") = true.
Proof.
  rewrite strip_render, render_closed.
  destruct (ordinal l ++ ". " ++ name l ++ " (Likelihood: " ++ label l);
    reflexivity.
Qed.

End LineFacts.

Section TextFacts.

Lemma no_line_feed_skip (x rest : string) :
  all_chars (not_char "010") x = true ->
  forall u t, x = u ++ t -> t <> "" -> startswith LF (t ++ rest) = false.
Proof.
  intros Hx u t E Ht.
  destruct (suffix_first _ _ _ _ E Ht Hx) as [c [t' [-> Hc]]].
  change (String c t' ++ rest) with (String c (t' ++ rest)).
  unfold LF. cbn [startswith]. unfold not_char in Hc.
  apply negb_true_iff in Hc.
  change (ascii_of_nat 10) with "010"%char. now rewrite Hc.
Qed.

(** Lines joined by line feeds are split back into the same lines. *)
Lemma split_joined_lines (x : string) (lines : list string) :
  Forall (fun y => all_chars (not_char "010") y = true) (x :: lines) ->
  split LF (join LF (x :: lines)) = x :: lines.
Proof.
  revert x; induction lines as [|y lines IH]; intros x H;
    inversion H as [|? ? Hx Hrest]; subst.
  - change (join LF [x]) with x.
    rewrite split_unfold by discriminate.
    rewrite <- (app_nil_end x) at 1.
    rewrite index_of_skip by (now apply no_line_feed_skip).
    reflexivity.
  - change (join LF (x :: y :: lines))
      with (x ++ LF ++ join LF (y :: lines)).
    rewrite split_unfold by discriminate.
    rewrite index_of_at by (now apply no_line_feed_skip).
    rewrite take_app_length, drop_add, drop_app_length.
    change (drop (String.length LF) (LF ++ join LF (y :: lines)))
      with (join LF (y :: lines)).
    now rewrite IH.
Qed.

(** The items of a text made of plain lines are these lines. *)
Lemma items_of_plain_lines (ls : list Line) :
  forallb plain_line ls = true ->
  diagnosis_items_of (text_of_lines ls) = map render ls.
Proof.
  intros H. unfold diagnosis_items_of, text_of_lines.
  destruct ls as [|l ls]; [reflexivity|].
  change (map render (l :: ls)) with (render l :: map render ls) at 1.
  rewrite split_joined_lines.
  - change (render l :: map render ls) with (map render (l :: ls)).
    induction (l :: ls) as [|a rest IH]; [reflexivity|].
    simpl in H. apply andb_true_iff in H as [Ha Hrest].
    cbn [map filter]. rewrite (render_nonblank a Ha).
    cbn [map]. now rewrite (strip_render a Ha), (IH Hrest).
  - change (render l :: map render ls) with (map render (l :: ls)).
    apply Forall_forall. intros x Hx.
    apply in_map_iff in Hx as [a [<- Ha]].
    rewrite forallb_forall in H. apply render_one_line; auto.
Qed.

End TextFacts.

(** C1, as the code has it: for lines [<n>. <name> (Likelihood: <label>)]
    whose ordinal is a number, whose name and label are trimmed and free of
    line feeds and of the marker, and whose label does not end with a
    closing parenthesis, the parser returns one record per line, in order,
    with the name as diagnosis and the label as likelihood. *)
Theorem plain_lines_are_decoded (ls : list Line) (r : string) :
  forallb plain_line ls = true ->
  exists recs,
    rr_text (text_of_lines ls) r = Ok recs /\
    map name_and_likelihood recs = map (fun l => (name l, label l)) ls.
Proof.
  intros Hplain. unfold rr_text. rewrite rr_of_body, rr_body_payload.
  rewrite (items_of_plain_lines ls Hplain).
  assert (Hall : forallb decodes (map render ls) = true).
  { apply forallb_forall. intros x Hx.
    apply in_map_iff in Hx as [l [<- Hl]].
    rewrite forallb_forall in Hplain.
    unfold decodes. now rewrite (decode_render l (Hplain l Hl)). }
  destruct (rr_loop_total r _ Hall) as [recs E]. rewrite E.
  exists recs. split; [reflexivity|].
  destruct (rr_loop_Ok _ _ _ E) as [Hlen Hnth].
  assert (F : Forall2 (fun item rec =>
                         decode_item item = Ok (name_and_likelihood rec))
                      (map render ls) recs).
  { apply Forall2_by_position; [exact Hlen|].
    intros k item Hk.
    destruct (Hnth k item Hk) as [nm [lk [span [H1 [_ H3]]]]].
    eexists. split; [exact H3 | exact H1]. }
  clear -F Hplain. revert recs F.
  induction ls as [|l ls IH]; intros recs F; inversion F; subst;
    [reflexivity|].
  simpl in Hplain. apply andb_true_iff in Hplain as [Hl Hls].
  cbn [map]. f_equal; [|now apply IH].
  match goal with
  | H : decode_item (render l) = _ |- _ =>
      rewrite (decode_render l Hl) in H; congruence
  end.
Qed.

Lemma plain_lines_are_decoded_witness :
  exists recs,
    rr_text (text_of_lines [mkLine "1" "Influenza" "High";
                            mkLine "2" "Common Cold (viral)" "Low"])
            influenza_rationale = Ok recs /\
    map name_and_likelihood recs
    = [("Influenza", "High"); ("Common Cold (viral)", "Low")].
Proof.
  apply (plain_lines_are_decoded
           [mkLine "1" "Influenza" "High";
            mkLine "2" "Common Cold (viral)" "Low"] influenza_rationale).
  vm_compute. reflexivity.
Defined.

Lemma likelihood_is_stripped_segment_witness :
  exists recs,
    rr_text "1. Flu (Likelihood: High) extra" flu_rationale = Ok recs /\
    Forall2 (fun item rec =>
               exists seg, likelihood_segment item = Some seg /\
                           likelihood rec = strip (rstrip_char ")" seg))
            ["1. Flu (Likelihood: High) extra"] recs.
Proof.
  apply (likelihood_is_stripped_segment "1. Flu (Likelihood: High) extra"
           flu_rationale).
  vm_compute. reflexivity.
Defined.

(* ===================================================================== *)
(** ** Further properties of the parser *)
(* ===================================================================== *)

Section TrimFacts.

Lemma last_char_rstrip (p : ascii -> bool) (s : string) (c : ascii) :
  last_char (rstrip_by p s) = Some c -> p c = false.
Proof.
  induction s as [|x s IH]; [discriminate|].
  cbn [rstrip_by]. destruct (rstrip_by p s) as [|y t] eqn:E.
  - destruct (p x) eqn:Ex; [discriminate|].
    simpl. intros H. injection H as <-. exact Ex.
  - intros H. apply IH. exact H.
Qed.

Lemma rstrip_idem (p : ascii -> bool) (s : string) :
  rstrip_by p (rstrip_by p s) = rstrip_by p s.
Proof.
  apply rstrip_keep.
  destruct (last_char (rstrip_by p s)) as [c|] eqn:E; [|exact I].
  eapply last_char_rstrip; eauto.
Qed.

Lemma lstrip_head (p : ascii -> bool) (s : string) :
  match lstrip_by p s with
  | "" => True
  | String c _ => p c = false
  end.
Proof.
  induction s as [|x s IH]; [exact I|].
  cbn [lstrip_by]. destruct (p x) eqn:E; [exact IH | exact E].
Qed.

Lemma rstrip_head (p : ascii -> bool) (c : ascii) (t : string) :
  p c = false -> exists t', rstrip_by p (String c t) = String c t'.
Proof.
  intros Hc. cbn [rstrip_by]. destruct (rstrip_by p t) as [|y u].
  - rewrite Hc. eauto.
  - eauto.
Qed.

Lemma strip_idem (s : string) : strip (strip s) = strip s.
Proof.
  unfold strip.
  assert (H : lstrip_by isspace (rstrip_by isspace (lstrip_by isspace s))
              = rstrip_by isspace (lstrip_by isspace s)).
  { pose proof (lstrip_head isspace s) as Hh.
    destruct (lstrip_by isspace s) as [|c t]; [reflexivity|].
    destruct (rstrip_head isspace c t Hh) as [t' ->].
    cbn [lstrip_by]. now rewrite Hh. }
  rewrite H. apply rstrip_idem.
Qed.

Lemma trimmed_strip (s : string) : trimmed (strip s) = true.
Proof. unfold trimmed. rewrite strip_idem. apply String.eqb_refl. Qed.

(** A text is blank exactly when it is made of white space. *)
Lemma strip_blank (s : string) :
  all_chars isspace s = true -> strip s = "".
Proof.
  intros H. unfold strip.
  assert (E : lstrip_by isspace s = "").
  { induction s as [|c s IH]; [reflexivity|].
    cbn [all_chars] in H. apply andb_true_iff in H as [Hc Hs].
    cbn [lstrip_by]. rewrite Hc. auto. }
  now rewrite E.
Qed.

Lemma blank_strip (s : string) :
  strip s = "" -> all_chars isspace s = true.
Proof.
  unfold strip. induction s as [|c s IH]; [reflexivity|].
  cbn [lstrip_by all_chars]. destruct (isspace c) eqn:Ec; [exact IH|].
  intros H. destruct (rstrip_head isspace c s Ec) as [t' E].
  rewrite E in H. discriminate.
Qed.

End TrimFacts.

Section SegmenterFacts.

Lemma cons_head_app (c : ascii) (l1 l2 : list string) :
  l1 <> [] -> cons_head c (l1 ++ l2)%list = (cons_head c l1 ++ l2)%list.
Proof. destruct l1; [congruence | reflexivity]. Qed.

(** Cutting at line feeds distributes over a line feed between two
    texts. *)
Lemma split_lines_app (a b : string) :
  split LF (a ++ LF ++ b) = (split LF a ++ split LF b)%list.
Proof.
  unfold split. induction a as [|c a IH]; [reflexivity|].
  change (String c a ++ LF ++ b) with (String c (a ++ LF ++ b)).
  assert (E : forall x, startswith LF (String c x)
                        = Ascii.eqb (ascii_of_nat 10) c).
  { intros x. unfold LF. cbn [startswith]. apply andb_true_r. }
  cbn [split_go]. rewrite !E.
  change (String.length LF - 1) with 0.
  destruct (Ascii.eqb (ascii_of_nat 10) c).
  - now rewrite IH.
  - rewrite IH. apply cons_head_app.
    destruct (split_go_nonempty LF a 0) as [h [t ->]]. discriminate.
Qed.

Lemma items_app (a b : string) :
  diagnosis_items_of (a ++ LF ++ b)
  = (diagnosis_items_of a ++ diagnosis_items_of b)%list.
Proof.
  unfold diagnosis_items_of.
  now rewrite split_lines_app, filter_app, map_app.
Qed.

Lemma all_chars_cons_head (p : ascii -> bool) (c : ascii)
      (l : list string) :
  p c = true ->
  Forall (fun w => all_chars p w = true) l ->
  Forall (fun w => all_chars p w = true) (cons_head c l).
Proof.
  intros Hc H. destruct H as [|w ws Hw Hws]; cbn [cons_head].
  - constructor; [simpl; now rewrite Hc | constructor].
  - constructor; [simpl; now rewrite Hc, Hw | exact Hws].
Qed.

(** The pieces of a split are made of characters of the text. *)
Lemma all_chars_split (p : ascii -> bool) (sep s : string) (k : nat) :
  all_chars p s = true ->
  Forall (fun w => all_chars p w = true) (split_go sep s k).
Proof.
  revert k; induction s as [|c s IH]; intros k H.
  - simpl. constructor; [reflexivity | constructor].
  - cbn [all_chars] in H. apply andb_true_iff in H as [Hc Hs].
    cbn [split_go]. destruct k as [|k]; [|now apply IH].
    destruct (startswith sep (String c s)).
    + constructor; [reflexivity | now apply IH].
    + apply all_chars_cons_head; auto.
Qed.

Lemma items_blank (ws : string) :
  strip ws = "" -> diagnosis_items_of ws = [].
Proof.
  intros H. apply blank_strip in H.
  unfold diagnosis_items_of, split.
  pose proof (all_chars_split isspace LF ws 0 H) as F.
  induction F as [|w l Hw Hl IH]; [reflexivity|].
  cbn [filter]. rewrite (strip_blank w Hw). exact IH.
Qed.

End SegmenterFacts.

(** X1: every item the segmenter hands to the decoder is non-empty and has
    no white space at either end. *)
Theorem diagnosis_items_clean (d : string) :
  Forall (fun item => item <> "" /\ trimmed item = true)
         (diagnosis_items_of d).
Proof.
  unfold diagnosis_items_of.
  induction (split LF d) as [|x l IH]; [constructor|].
  cbn [filter]. destruct (String.eqb (strip x) "") eqn:E; cbn [negb].
  - exact IH.
  - cbn [map]. constructor; [|exact IH].
    split; [now apply String.eqb_neq in E | apply trimmed_strip].
Qed.

(** X2: the items of two texts put one after the other with a line feed
    between them are the items of the first followed by the items of the
    second. *)
Theorem diagnosis_items_of_two_texts (a b : string) :
  diagnosis_items_of (a ++ LF ++ b)
  = (diagnosis_items_of a ++ diagnosis_items_of b)%list.
Proof. apply items_app. Qed.

(** X3: lines made of white space only, wherever they stand, add no
    item. *)
Theorem blank_lines_are_dropped (a ws b : string) :
  strip ws = "" ->
  diagnosis_items_of (a ++ LF ++ ws ++ LF ++ b)
  = (diagnosis_items_of a ++ diagnosis_items_of b)%list.
Proof.
  intros H. now rewrite !items_app, (items_blank ws H).
Qed.

Lemma blank_lines_are_dropped_witness :
  diagnosis_items_of ("1. Flu (Likelihood: High)" ++ LF ++ "   " ++ LF
                      ++ "2. Cold (Likelihood: Low)")
  = ["1. Flu (Likelihood: High)"; "2. Cold (Likelihood: Low)"].
Proof.
  apply (blank_lines_are_dropped "1. Flu (Likelihood: High)" "   "
           "2. Cold (Likelihood: Low)").
  reflexivity.
Defined.

Section LocatorFacts.

Lemma clip_sum (len a b : nat) :
  a + b <= len -> clip len (Z.of_nat a + Z.of_nat b) = a + b.
Proof.
  intros H. rewrite <- Nat2Z.inj_add. now apply clip_inside.
Qed.

Lemma find_not_minus_one (n : nat) : (Z.of_nat n =? -1)%Z = false.
Proof. apply Z.eqb_neq. lia. Qed.

(** The slice after a heading that stands at the end of [before]. *)
Lemma slice_from_after (before h body : string) :
  slice_from (before ++ h ++ body)
             (Z.of_nat (String.length before) + Z.of_nat (String.length h))
  = body.
Proof.
  unfold slice_from. rewrite clip_sum by (rewrite !length_app; lia).
  now rewrite drop_add, drop_app_length, drop_app_length.
Qed.


Lemma take_nothing (s : string) : take 0 s = "".
Proof. destruct s; reflexivity. Qed.

End LocatorFacts.

(** X4: for the last item, when its heading is first found right after
    [before], the span is all that follows the heading up to the end of
    the rationale text, trimmed. *)
Theorem last_item_span_runs_to_end (items : list string) (i : nat)
        (nm before body : string) :
  (i <? length items - 1)%nat = false ->
  find (before ++ heading (i + 1) nm ++ body) (heading (i + 1) nm)
  = Z.of_nat (String.length before) ->
  locate (JStr (before ++ heading (i + 1) nm ++ body)) items i nm
  = Ok (strip body).
Proof.
  intros Hlast Hfind. unfold locate. rewrite Hlast.
  cbn [bind str_method]. rewrite Hfind, find_not_minus_one.
  cbn [negb]. now rewrite slice_from_after.
Qed.

Lemma last_item_span_runs_to_end_witness :
  locate (JStr ("Notes. " ++ heading (0 + 1) "Flu" ++ " Clinical fever. "))
         ["1. Flu (Likelihood: High)"] 0 "Flu"
  = Ok (strip " Clinical fever. ").
Proof.
  apply (last_item_span_runs_to_end ["1. Flu (Likelihood: High)"] 0 "Flu"
           "Notes. " " Clinical fever. ");
    vm_compute; reflexivity.
Defined.



(** X6: when both headings are found but the successor's heading begins
    at or before the place where the item's own heading ends, the span is
    empty; crossed headings raise nothing. *)
Theorem crossed_headings_give_empty_span (items : list string) (i : nat)
        (nm next r : string) (p q : nat) :
  (i <? length items - 1)%nat = true ->
  next_heading items i = Ok next ->
  find r (heading (i + 1) nm) = Z.of_nat p ->
  find r next = Z.of_nat q ->
  q <= p + String.length (heading (i + 1) nm) ->
  locate (JStr r) items i nm = Ok "".
Proof.
  intros Hin Hnext Hown Hnxt Hle. unfold locate. rewrite Hin, Hnext.
  cbn [bind str_method]. rewrite Hown, Hnxt, !find_not_minus_one.
  cbn [negb andb]. unfold slice.
  assert (Hq : q <= String.length r).
  { unfold find in Hnxt.
    destruct (index_of next r) as [k|] eqn:E; [|lia].
    apply Nat2Z.inj in Hnxt. subst k.
    now destruct (index_of_Some _ _ _ E). }
  rewrite (clip_inside _ q Hq).
  assert (Hc : q <= clip (String.length r)
                      (Z.of_nat p
                       + Z.of_nat (String.length (heading (i + 1) nm)))).
  { unfold clip. cbv zeta.
    destruct (Z.ltb_spec
                (Z.of_nat p + Z.of_nat (String.length (heading (i + 1) nm)))
                0); lia. }
  replace (q - _) with 0 by lia.
  now rewrite take_nothing.
Qed.

Lemma crossed_headings_give_empty_span_witness :
  locate (JStr "2. Cold Clinical sneeze. 1. Flu Clinical fever.")
         ["1. Flu (Likelihood: High)"; "2. Cold (Likelihood: Low)"] 0 "Flu"
  = Ok "".
Proof.
  apply (crossed_headings_give_empty_span
           ["1. Flu (Likelihood: High)"; "2. Cold (Likelihood: Low)"] 0
           "Flu" "2. Cold" _ 25 0);
    [vm_compute; reflexivity .. | simpl; lia].
Defined.

Section CutFacts.

Lemma normalize_cleaned (span : string) :
  normalize span
  = slice_from (cleaned span) (find (cleaned span) "Clinical").
Proof. reflexivity. Qed.

Lemma drop_to_last (s : string) :
  drop (String.length s - 1) s = last_as_text s.
Proof.
  induction s as [|c s IH]; [reflexivity|].
  unfold last_as_text. cbn [String.length last_char].
  rewrite Nat.sub_succ, Nat.sub_0_r.
  destruct s as [|x s']; [reflexivity|].
  cbn [String.length drop].
  unfold last_as_text in IH. cbn [String.length] in IH.
  now rewrite Nat.sub_succ, Nat.sub_0_r in IH.
Qed.

(** What the cut returns, told by the first occurrence of ["Clinical"]. *)
Lemma cut_cases (s : string) :
  slice_from s (find s "Clinical")
  = match index_of "Clinical" s with
    | Some i => drop i s
    | None => last_as_text s
    end.
Proof.
  unfold slice_from, find.
  destruct (index_of "Clinical" s) as [i|] eqn:E.
  - destruct (index_of_Some _ _ _ E) as [_ Hi].
    now rewrite clip_inside.
  - rewrite clip_minus_one. apply drop_to_last.
Qed.

Lemma last_char_drop (k : nat) (s : string) :
  drop k s <> "" -> last_char (drop k s) = last_char s.
Proof.
  revert s; induction k as [|k IH]; intros s H; [reflexivity|].
  destruct s as [|c s]; [reflexivity|].
  cbn [drop] in *. rewrite (IH s H).
  destruct s as [|x s']; [|reflexivity].
  rewrite drop_nil in H. congruence.
Qed.

Lemma trimmed_by_ends (s : string) :
  lstrip_by isspace s = s -> rstrip_by isspace s = s -> trimmed s = true.
Proof.
  intros Hl Hr. unfold trimmed, strip. rewrite Hl, Hr.
  apply String.eqb_refl.
Qed.

Lemma last_char_strip (s : string) (c : ascii) :
  last_char (strip s) = Some c -> isspace c = false.
Proof. unfold strip. apply last_char_rstrip. Qed.

(** The cut of a trimmed text is trimmed. *)
Lemma cut_trimmed (s : string) :
  trimmed (slice_from (strip s) (find (strip s) "Clinical")) = true.
Proof.
  rewrite cut_cases.
  destruct (index_of "Clinical" (strip s)) as [i|] eqn:E.
  - destruct (index_of_Some _ _ _ E) as [Hs _].
    destruct (drop i (strip s)) as [|c t] eqn:Ed; [discriminate|].
    apply trimmed_by_ends.
    + cbn [startswith] in Hs. apply andb_true_iff in Hs as [Hc _].
      apply Ascii.eqb_eq in Hc. subst c. reflexivity.
    + apply rstrip_keep. rewrite <- Ed.
      rewrite last_char_drop by (rewrite Ed; discriminate).
      destruct (last_char (strip s)) as [x|] eqn:El; [|exact I].
      eapply last_char_strip; eauto.
  - unfold last_as_text.
    destruct (last_char (strip s)) as [x|] eqn:El; [|reflexivity].
    apply last_char_strip in El.
    apply trimmed_by_ends; simpl; now rewrite El.
Qed.

Lemma normalize_trimmed (span : string) : trimmed (normalize span) = true.
Proof. rewrite normalize_cleaned. unfold cleaned. apply cut_trimmed. Qed.

Lemma not_malformed_decodes (item : string) :
  malformed item = false -> decodes item = true.
Proof.
  unfold malformed, contains, decodes. intros H.
  apply orb_false_iff in H as [Hm Hs].
  rewrite decode_item_spec. unfold likelihood_segment.
  destruct (index_of MARKER item) as [i|]; [|discriminate].
  destruct (index_of ". " (name_segment item)) as [j|]; [|discriminate].
  cbv zeta.
  now destruct (index_of MARKER (drop (i + String.length MARKER) item)).
Qed.

Lemma forallb_decodes_malformed (items : list string) :
  forallb decodes items = negb (existsb malformed items).
Proof.
  induction items as [|x l IH]; [reflexivity|].
  cbn [forallb existsb]. rewrite IH, negb_orb. f_equal.
  destruct (malformed x) eqn:E.
  - unfold decodes. now rewrite (malformed_raises x E).
  - now rewrite (not_malformed_decodes x E).
Qed.

End CutFacts.

(** X7: the rationale of a record is the cleaned span from its first
    ["Clinical"] on; when the cleaned span has no ["Clinical"] it is the
    last character of the cleaned span (nothing when that span is
    empty). *)
Theorem normalize_cut (span : string) :
  normalize span
  = match index_of "Clinical" (cleaned span) with
    | Some i => drop i (cleaned span)
    | None => last_as_text (cleaned span)
    end.
Proof. rewrite normalize_cleaned. apply cut_cases. Qed.

(** X8: in every record returned by [rr], the diagnosis, the likelihood
    and the rationale have no white space at either end. *)
Theorem record_fields_are_trimmed (j : json) (recs : list DiagnosisRecord)
        (rec : DiagnosisRecord) :
  rr j = Ok recs -> In rec recs ->
  trimmed (diagnosis rec) = true /\
  trimmed (likelihood rec) = true /\
  trimmed (rationale rec) = true.
Proof.
  rewrite rr_of_body. intros H Hin. injection H as H.
  destruct (rr_body j) as [recs'|e] eqn:E; subst recs; [|contradiction].
  destruct (rr_body_Ok j recs' E) as [d [rt [Hf Hl]]].
  destruct (rr_loop_Ok rt _ recs' Hl) as [Hlen Hnth].
  apply In_nth_error in Hin as [k Hk].
  assert (Hk' : k < length (diagnosis_items_of d)).
  { rewrite <- Hlen. apply nth_error_Some. congruence. }
  destruct (nth_error (diagnosis_items_of d) k) as [item|] eqn:Ei;
    [|apply nth_error_None in Ei; lia].
  destruct (Hnth k item Ei) as [nm [lk [span [Hd [_ Hrec]]]]].
  rewrite Hk in Hrec. injection Hrec as ->.
  cbn [diagnosis likelihood rationale].
  rewrite decode_item_spec in Hd.
  destruct (index_of ". " (name_segment item)); [|discriminate].
  destruct (likelihood_segment item); [|discriminate].
  injection Hd as <- <-.
  repeat split; auto using trimmed_strip, normalize_trimmed.
Qed.

Lemma record_fields_are_trimmed_witness :
  trimmed "Common Cold" = true /\ trimmed "Low" = true /\
  trimmed "Clinical signs are mild congestion." = true.
Proof.
  apply (record_fields_are_trimmed
           (payload influenza_diagnosis influenza_rationale)
           [mkRecord "Influenza" "Clinical signs include fever and cough."
                     "High";
            mkRecord "Common Cold" "Clinical signs are mild congestion."
                     "Low"]
           (mkRecord "Common Cold" "Clinical signs are mild congestion."
                     "Low")).
  - vm_compute. reflexivity.
  - simpl. right. left. reflexivity.
Defined.

(** X9: on a payload with two string fields, the result is empty exactly
    when the diagnosis text has no item or has an item the decoder cannot
    read. *)
Theorem empty_result_means_no_item_or_malformed (d r : string) :
  rr_text d r = Ok [] <->
  diagnosis_items_of d = [] \/
  existsb malformed (diagnosis_items_of d) = true.
Proof.
  unfold rr_text. rewrite rr_of_body, rr_body_payload.
  pose proof (forallb_decodes_malformed (diagnosis_items_of d)) as Hfm.
  destruct (existsb malformed (diagnosis_items_of d)) eqn:Em;
    cbn [negb] in Hfm.
  - destruct (rr_loop_malformed (JStr r) _ Hfm) as [e ->].
    split; auto.
  - destruct (rr_loop_total r _ Hfm) as [recs E]. rewrite E.
    destruct (rr_loop_Ok _ _ _ E) as [Hlen _].
    split.
    + intros H. injection H as ->. left.
      destruct (diagnosis_items_of d); [reflexivity | discriminate Hlen].
    + intros [H | H]; [|discriminate].
      rewrite H in Hlen. destruct recs; [reflexivity | discriminate Hlen].
Qed.

Section OrdinalFacts.

Lemma for_each_enum_ext {A B : Type} (f f' : nat -> A -> result B)
      (l l' : list A) (a : nat) :
  length l = length l' ->
  (forall k x x', nth_error l k = Some x -> nth_error l' k = Some x' ->
                  f (a + k) x = f' (a + k) x') ->
  for_each (fun '(i, x) => f i x) (combine (seq a (length l)) l)
  = for_each (fun '(i, x) => f' i x) (combine (seq a (length l')) l').
Proof.
  revert l' a; induction l as [|x l IH]; intros [|x' l'] a Hlen H;
    try discriminate; [reflexivity|].
  pose proof (H 0 x x' eq_refl eq_refl) as H0.
  rewrite Nat.add_0_r in H0. simpl. rewrite H0.
  destruct (f' a x') as [y|e]; [|reflexivity]. cbn [bind].
  rewrite (IH l' (S a)); [reflexivity | simpl in Hlen; lia |].
  intros k z z' Hz Hz'.
  replace (S a + k) with (a + S k) by lia. now apply H.
Qed.

(** After the first [". "] of a plain line comes the line without its
    ordinal. *)
Lemma render_after_separator (l : Line) :
  plain_line l = true ->
  getitem (split1 ". " (render l)) 1
  = Ok (name l ++ " (Likelihood: " ++ label l ++ ")").
Proof.
  intros Hp. destruct (plain_facts l Hp) as [_ [Hd _]].
  unfold split1, render.
  rewrite index_of_at by (apply digits_skip; [exact Hd | reflexivity]).
  cbn [getitem nth_error].
  now rewrite drop_add, drop_app_length.
Qed.

Lemma next_heading_plain (ls : list Line) (i : nat) (l : Line) :
  forallb plain_line ls = true ->
  nth_error ls (i + 1) = Some l ->
  next_heading (map render ls) i
  = (h <- getitem (split "(Likelihood:"
                         (name l ++ " (Likelihood: " ++ label l ++ ")")) 0 ;;
     Ok (heading (i + 2) (strip h))).
Proof.
  intros Hp Hl. unfold next_heading, getitem at 1.
  rewrite (map_nth_error render _ _ Hl). cbn [bind].
  rewrite render_after_separator; [reflexivity|].
  rewrite forallb_forall in Hp. apply Hp. eapply nth_error_In; eauto.
Qed.

Lemma nth_error_same_field {F : Type} (f : Line -> F) (ls ls' : list Line)
      (k : nat) (l l' : Line) :
  map f ls = map f ls' ->
  nth_error ls k = Some l -> nth_error ls' k = Some l' -> f l = f l'.
Proof.
  intros Hm Hl Hl'.
  apply (map_nth_error f) in Hl. apply (map_nth_error f) in Hl'.
  rewrite Hm in Hl. congruence.
Qed.

Lemma locate_plain_ext (r : string) (ls ls' : list Line) (i : nat)
      (nm : string) :
  forallb plain_line ls = true -> forallb plain_line ls' = true ->
  map name ls = map name ls' -> map label ls = map label ls' ->
  locate (JStr r) (map render ls) i nm
  = locate (JStr r) (map render ls') i nm.
Proof.
  intros Hp Hp' Hn Hl. unfold locate.
  assert (Hlen : length ls = length ls').
  { rewrite <- (length_map name ls), Hn. apply length_map. }
  rewrite !length_map, <- Hlen.
  destruct (i <? length ls - 1)%nat eqn:Ei; [|reflexivity].
  apply Nat.ltb_lt in Ei.
  destruct (nth_error ls (i + 1)) as [l|] eqn:E;
    [|apply nth_error_None in E; lia].
  destruct (nth_error ls' (i + 1)) as [l'|] eqn:E';
    [|apply nth_error_None in E'; lia].
  rewrite (next_heading_plain ls i l Hp E).
  rewrite (next_heading_plain ls' i l' Hp' E').
  now rewrite (nth_error_same_field name _ _ _ _ _ Hn E E'),
              (nth_error_same_field label _ _ _ _ _ Hl E E').
Qed.

End OrdinalFacts.

(** X10: the number written at the start of a line plays no part: two
    texts of plain lines with the same names and labels, whatever their
    ordinals, give the same result on the same rationale text; headings
    are numbered by position. *)
Theorem written_ordinals_are_ignored (ls ls' : list Line) (r : string) :
  forallb plain_line ls = true -> forallb plain_line ls' = true ->
  map name ls = map name ls' -> map label ls = map label ls' ->
  rr_text (text_of_lines ls) r = rr_text (text_of_lines ls') r.
Proof.
  intros Hp Hp' Hn Hl. unfold rr_text.
  rewrite !rr_of_body, !rr_body_payload.
  rewrite (items_of_plain_lines ls Hp), (items_of_plain_lines ls' Hp').
  enough (E : rr_loop (JStr r) (map render ls)
              = rr_loop (JStr r) (map render ls')) by now rewrite E.
  unfold rr_loop, enumerate.
  apply (for_each_enum_ext (rr_item (JStr r) (map render ls))
                           (rr_item (JStr r) (map render ls'))).
  - rewrite !length_map, <- (length_map name ls), Hn. apply length_map.
  - intros k x x' Hx Hx'. simpl.
    rewrite nth_error_map in Hx, Hx'.
    destruct (nth_error ls k) as [l|] eqn:E; [|discriminate].
    destruct (nth_error ls' k) as [l'|] eqn:E'; [|discriminate].
    injection Hx as <-. injection Hx' as <-.
    assert (Pl : plain_line l = true).
    { rewrite forallb_forall in Hp. apply Hp. eapply nth_error_In; eauto. }
    assert (Pl' : plain_line l' = true).
    { rewrite forallb_forall in Hp'. apply Hp'. eapply nth_error_In; eauto. }
    unfold rr_item.
    rewrite (decode_render l Pl), (decode_render l' Pl').
    rewrite (nth_error_same_field name _ _ _ _ _ Hn E E'),
            (nth_error_same_field label _ _ _ _ _ Hl E E').
    cbn [bind].
    now rewrite (locate_plain_ext r ls ls' k (name l') Hp Hp' Hn Hl).
Qed.

Lemma written_ordinals_are_ignored_witness :
  rr_text (text_of_lines [mkLine "1" "Influenza" "High";
                          mkLine "2" "Common Cold" "Low"])
          influenza_rationale
  = rr_text (text_of_lines [mkLine "7" "Influenza" "High";
                            mkLine "7" "Common Cold" "Low"])
            influenza_rationale.
Proof.
  apply written_ordinals_are_ignored; vm_compute; reflexivity.
Defined.

(* ===================================================================== *)
(** ** Properties of the terminology search *)
(* ===================================================================== *)

Section TerminologyFacts.
Import Terminology.

Lemma lookup_dict_pop_same (k : string) (kvs : list (string * json)) :
  lookup k (dict_pop k kvs) = None.
Proof.
  induction kvs as [|[k' v] kvs IH]; [reflexivity|].
  unfold dict_pop in *. cbn [filter fst].
  destruct (String.eqb k k') eqn:E; cbn [negb]; [exact IH|].
  cbn [lookup]. now rewrite E.
Qed.

Lemma lookup_dict_pop_other (k k' : string) (kvs : list (string * json)) :
  k' <> k -> lookup k' (dict_pop k kvs) = lookup k' kvs.
Proof.
  intros Hne. induction kvs as [|[k0 v] kvs IH]; [reflexivity|].
  unfold dict_pop in *. cbn [filter fst lookup].
  destruct (String.eqb k k0) eqn:E; cbn [negb].
  - apply String.eqb_eq in E. subst k0.
    apply String.eqb_neq in Hne. now rewrite Hne.
  - cbn [lookup]. now rewrite IH.
Qed.

Lemma pop_fields_dict (concept : json) :
  is_dict concept = true ->
  exists concept', pop_fields concept = Ok concept' /\ sent_on concept concept'.
Proof.
  destruct concept as [| | | | | |kvs]; try discriminate. intros _.
  eexists. split; [reflexivity|].
  exists kvs, (dict_pop "id" (dict_pop "conceptFsn" kvs)).
  repeat split.
  - rewrite lookup_dict_pop_other by discriminate.
    apply lookup_dict_pop_same.
  - apply lookup_dict_pop_same.
  - intros k H1 H2. now rewrite !lookup_dict_pop_other.
Qed.

Lemma pop_fields_other (concept : json) :
  is_dict concept = false -> exists e, pop_fields concept = Raise e.
Proof. destruct concept; try discriminate; simpl; eauto. Qed.

Lemma for_each_pop_fields (l : list json) :
  forallb is_dict l = true ->
  exists l', for_each pop_fields l = Ok l' /\ Forall2 sent_on l l'.
Proof.
  induction l as [|x l IH]; intros H.
  - exists []. split; [reflexivity | constructor].
  - simpl in H. apply andb_true_iff in H as [Hx Hl].
    destruct (pop_fields_dict x Hx) as [x' [Ex Sx]].
    destruct (IH Hl) as [l' [El Sl]].
    exists (x' :: l'). simpl. rewrite Ex, El. simpl.
    split; [reflexivity | now constructor].
Qed.

Lemma for_each_pop_fields_fails (l : list json) :
  forallb is_dict l = false -> exists e, for_each pop_fields l = Raise e.
Proof.
  induction l as [|x l IH]; intros H; [discriminate|].
  simpl in H. simpl. destruct (is_dict x) eqn:Ex.
  - destruct (pop_fields_dict x Ex) as [x' [-> _]]. cbn [bind].
    destruct (IH H) as [e ->]. simpl. eauto.
  - destruct (pop_fields_other x Ex) as [e ->]. simpl. eauto.
Qed.

Lemma caught (A : Type) (m : result A) (h : exn -> result A) :
  try_except m h = match m with Ok a => Ok a | Raise e => h e end.
Proof. destruct m as [a|e]; [reflexivity | now destruct e]. Qed.

Lemma quote_char_chars (c : ascii) :
  all_chars quoted_char (quote_char c) = true.
Proof. destruct c as [[] [] [] [] [] [] [] []]; reflexivity. Qed.

Lemma quote_char_safe (c : ascii) :
  is_unreserved c || Ascii.eqb c "/" = true -> quote_char c = String c "".
Proof.
  destruct c as [[] [] [] [] [] [] [] []]; intros H;
    solve [reflexivity | discriminate H].
Qed.

Lemma unquote_quote_char (c : ascii) (rest : string) :
  unquote_char (quote_char c ++ rest) = Some (c, rest).
Proof. destruct c as [[] [] [] [] [] [] [] []]; reflexivity. Qed.

Lemma app_inv_head (a x y : string) : a ++ x = a ++ y -> x = y.
Proof.
  induction a as [|c a IH]; simpl; intros H; [exact H|].
  injection H as H. auto.
Qed.

Lemma app_inv_tail (x y z : string) : x ++ z = y ++ z -> x = y.
Proof.
  revert y; induction x as [|c x IH]; intros [|d y] H.
  - reflexivity.
  - exfalso. apply (f_equal String.length) in H.
    simpl in H. rewrite length_app in H. lia.
  - exfalso. apply (f_equal String.length) in H.
    simpl in H. rewrite length_app in H. lia.
  - simpl in H. injection H as -> H. f_equal. auto.
Qed.

Lemma quote_inj (s t : string) : quote s = quote t -> s = t.
Proof.
  revert t; induction s as [|c s IH]; intros [|d t] H.
  - reflexivity.
  - exfalso. apply (f_equal unquote_char) in H.
    cbn [quote] in H. rewrite unquote_quote_char in H. discriminate.
  - exfalso. apply (f_equal unquote_char) in H.
    cbn [quote] in H. rewrite unquote_quote_char in H. discriminate.
  - apply (f_equal unquote_char) in H. cbn [quote] in H.
    rewrite !unquote_quote_char in H. injection H as -> H.
    f_equal. auto.
Qed.

End TerminologyFacts.

(** X11: a term quoted for the address is made of letters, digits,
    ["_.-~"], ["/"] and ["%"] only; no ["&"], ["="], ["?"], ["#"] or space
    of the term reaches the query string. *)
Theorem quote_leaves_only_safe_characters (term : string) :
  all_chars Terminology.quoted_char (Terminology.quote term) = true.
Proof.
  induction term as [|c s IH]; [reflexivity|].
  cbn [Terminology.quote].
  now rewrite all_chars_app, quote_char_chars, IH.
Qed.

(** X12: a term made of letters, digits, ["_.-~"] and ["/"] is put into
    the address as it is. *)
Theorem quote_keeps_safe_terms (term : string) :
  all_chars (fun c => Terminology.is_unreserved c || Ascii.eqb c "/") term
  = true ->
  Terminology.quote term = term.
Proof.
  induction term as [|c s IH]; [reflexivity|].
  cbn [all_chars Terminology.quote]. intros H.
  apply andb_true_iff in H as [Hc Hs].
  now rewrite (quote_char_safe c Hc), (IH Hs).
Qed.

Lemma quote_keeps_safe_terms_witness :
  Terminology.quote "fever/acute_onset-2" = "fever/acute_onset-2".
Proof.
  apply quote_keeps_safe_terms. vm_compute. reflexivity.
Defined.

(** X13: two different terms are never sent to the same address. *)
Theorem search_url_tells_terms_apart (base term term' : string) :
  Terminology.search_url base term = Terminology.search_url base term' ->
  term = term'.
Proof.
  unfold Terminology.search_url. intros H.
  apply app_inv_head, app_inv_head, app_inv_tail in H.
  now apply quote_inj.
Qed.

Lemma search_url_tells_terms_apart_witness :
  "chest pain" = "chest pain".
Proof.
  apply (search_url_tells_terms_apart "http://snomed.example"
           "chest pain" "chest pain").
  reflexivity.
Defined.

(** X14: when the service answers a list of objects, the reply is 200 and
    carries the same concepts in the same order, each without its
    ["conceptFsn"] and ["id"] entries and with every other entry as it
    was. *)
Theorem getDiags_sends_concepts_on (base term : string)
        (urlopen_json : string -> Terminology.fetched)
        (concepts : list json) :
  urlopen_json (Terminology.search_url base term)
  = Terminology.Fetched (JList concepts) ->
  forallb Terminology.is_dict concepts = true ->
  exists concepts',
    Terminology.getDiags (Some base) urlopen_json term
    = Ok (Terminology.Response 200 (JDict [("result", JList concepts')])) /\
    Forall2 Terminology.sent_on concepts concepts'.
Proof.
  intros Hf Hd. unfold Terminology.getDiags. cbn [bind]. rewrite Hf.
  destruct (for_each_pop_fields concepts Hd) as [l' [E S]].
  exists l'. split; [|exact S].
  rewrite caught. unfold Terminology.strip_concepts. rewrite E.
  reflexivity.
Qed.

Lemma getDiags_sends_concepts_on_witness :
  exists concepts',
    Terminology.getDiags (Some "http://snomed.example")
      (fun _ => Terminology.Fetched
                  (JList [JDict [("id", JInt 7); ("term", JStr "Fever");
                                 ("conceptFsn", JStr "Fever (finding)")]]))
      "fever"
    = Ok (Terminology.Response 200 (JDict [("result", JList concepts')])) /\
    Forall2 Terminology.sent_on
      [JDict [("id", JInt 7); ("term", JStr "Fever");
              ("conceptFsn", JStr "Fever (finding)")]]
      concepts'.
Proof.
  apply (getDiags_sends_concepts_on "http://snomed.example" "fever");
    reflexivity.
Defined.

(** X15: one element of the answered list that is not an object spoils
    the whole reply: the view answers 500 with the fixed message, whatever
    the other elements are. *)
Theorem getDiags_one_bad_element_spoils_all (base term : string)
        (urlopen_json : string -> Terminology.fetched)
        (concepts : list json) :
  urlopen_json (Terminology.search_url base term)
  = Terminology.Fetched (JList concepts) ->
  forallb Terminology.is_dict concepts = false ->
  Terminology.getDiags (Some base) urlopen_json term
  = Ok Terminology.unavailable.
Proof.
  intros Hf Hd. unfold Terminology.getDiags. cbn [bind]. rewrite Hf.
  destruct (for_each_pop_fields_fails concepts Hd) as [e E].
  rewrite caught. unfold Terminology.strip_concepts. now rewrite E.
Qed.

Lemma getDiags_one_bad_element_spoils_all_witness :
  Terminology.getDiags (Some "http://snomed.example")
    (fun _ => Terminology.Fetched
                (JList [JDict [("term", JStr "Fever")]; JNull]))
    "fever"
  = Ok Terminology.unavailable.
Proof.
  apply (getDiags_one_bad_element_spoils_all "http://snomed.example"
           "fever" _ [JDict [("term", JStr "Fever")]; JNull]);
    reflexivity.
Defined.

(** X16: with the base address configured, no exception leaves the view:
    it answers 200 with a result, or 500 with the fixed message; without
    it, the view raises [TypeError] before the service is called. *)
Theorem getDiags_outcomes (SNOMED_BASE_URL : option string)
        (urlopen_json : string -> Terminology.fetched) (term : string) :
  match SNOMED_BASE_URL with
  | None =>
      Terminology.getDiags None urlopen_json term = Raise TypeError
  | Some base =>
      Terminology.getDiags (Some base) urlopen_json term
      = Ok Terminology.unavailable \/
      exists data',
        Terminology.getDiags (Some base) urlopen_json term
        = Ok (Terminology.Response 200 (JDict [("result", data')]))
  end.
Proof.
  destruct SNOMED_BASE_URL as [base|]; [|reflexivity].
  unfold Terminology.getDiags. cbn [bind].
  destruct (urlopen_json _) as [data|]; [|now left].
  rewrite caught.
  destruct (Terminology.strip_concepts data) as [data'|e]; cbn [bind].
  - right. eauto.
  - now left.
Qed.

(** X17: a reply that is not a list is sent on only when it is an empty
    object or an empty string; a non-empty object (its keys have no
    [pop]), a non-empty string, a number, a truth value or null gives the
    500 reply. *)
Theorem getDiags_reply_that_is_no_list (base term : string)
        (urlopen_json : string -> Terminology.fetched) (data : json) :
  urlopen_json (Terminology.search_url base term) = Terminology.Fetched data ->
  (forall l, data <> JList l) ->
  Terminology.getDiags (Some base) urlopen_json term
  = if match data with
       | JDict [] => true
       | JStr "" => true
       | _ => false
       end
    then Ok (Terminology.Response 200 (JDict [("result", data)]))
    else Ok Terminology.unavailable.
Proof.
  intros Hf Hl. unfold Terminology.getDiags. cbn [bind]. rewrite Hf.
  rewrite caught.
  destruct data as [| | | |s|l|kvs]; try reflexivity.
  - destruct s; reflexivity.
  - now elim (Hl l).
  - destruct kvs as [|[k v] kvs]; reflexivity.
Qed.

Lemma getDiags_reply_that_is_no_list_witness :
  Terminology.getDiags (Some "http://snomed.example")
    (fun _ => Terminology.Fetched (JDict [("error", JStr "bad term")]))
    "fever"
  = Ok Terminology.unavailable.
Proof.
  apply (getDiags_reply_that_is_no_list "http://snomed.example" "fever"
           (fun _ => Terminology.Fetched (JDict [("error", JStr "bad term")]))
           (JDict [("error", JStr "bad term")])).
  - reflexivity.
  - intros l H. discriminate H.
Defined.

(* ===================================================================== *)
(** ** Properties of the clock *)
(* ===================================================================== *)

Section ClockFacts.
Import Clock.






End ClockFacts.



(* ===================================================================== *)
(** ** Properties of the concept endpoint *)
(* ===================================================================== *)

Section ConceptFacts.
Import Concepts.

Lemma bindM_returns {A B : Type} (m : M A) (k : A -> M B)
      (log log' : list statement) (a : A) :
  m log = (log', Returns a) -> bindM m k log = k a log'.
Proof. intros H. unfold bindM. now rewrite H. Qed.

Lemma bindM_raises {A B : Type} (m : M A) (k : A -> M B)
      (log log' : list statement) (e : raised) :
  m log = (log', Raises e) -> bindM m k log = (log', Raises e).
Proof. intros H. unfold bindM. now rewrite H. Qed.

Lemma lift_Ok {A : Type} (r : result A) (a : A) (log : list statement) :
  r = Ok a -> lift r log = (log, Returns a).
Proof. now intros ->. Qed.

Lemma check_concept_found (w : world) (name : json) (log : list statement)
      (cid : Z) :
  bound (select w log (SelectConcept name)) = Some (Some cid) ->
  check_concept w name log = ((log ++ [SelectConcept name])%list, Returns cid).
Proof.
  unfold check_concept, bound.
  destruct (select w log (SelectConcept name)) as [[v|]| |[v|]];
    intros H; try discriminate; now injection H as ->.
Qed.

Lemma reference_term_bound (w : world) (code : json) (log : list statement)
      (k : Z) :
  bound (insert w log (InsertReferenceTerm code)) = Some k ->
  add_concept_reference_term w code log
  = ((log ++ [InsertReferenceTerm code])%list, Returns k).
Proof.
  unfold add_concept_reference_term, inserting, bound.
  destruct (insert w log (InsertReferenceTerm code));
    intros H; try discriminate; now injection H as ->.
Qed.

Lemma concept_bound (w : world) (log : list statement) (cid : Z) :
  bound (insert w log InsertConcept) = Some cid ->
  add_concept w log = ((log ++ [InsertConcept])%list, Returns cid).
Proof.
  unfold add_concept, inserting, bound.
  destruct (insert w log InsertConcept);
    intros H; try discriminate; now injection H as ->.
Qed.

Lemma reference_map_returns (w : world) (cid k : Z) (log : list statement) :
  exists y, add_concept_reference_map w cid k log
            = ((log ++ [InsertReferenceMap k cid])%list, Returns y).
Proof.
  unfold add_concept_reference_map, inserting.
  destruct (insert w log (InsertReferenceMap k cid)); eauto.
Qed.

Lemma concept_name_returns (w : world) (cid : Z) (name : json)
      (log : list statement) :
  add_concept_name w cid name log
  = ((log ++ [InsertConceptName cid name])%list, Returns "A").
Proof. reflexivity. Qed.

Lemma diagnosis_set_returns (w : world) (cid : Z) (log : list statement) :
  add_concept_diagnosis_set w cid log
  = ((log ++ [InsertConceptSet cid])%list, Returns "A").
Proof. reflexivity. Qed.

End ConceptFacts.

(** X19: when the concept is found under a positive number and the
    reference term is inserted, the endpoint attempts exactly the
    selection, the insertion of the term and the insertion of the map that
    ties the term to the found concept; it creates no concept, and it
    answers that the mapping was added whether or not the insertion of the
    map succeeded. *)
Theorem snomed_maps_a_known_concept (w : Concepts.world)
        (request_data concept_name snomed_code : json)
        (log : list Concepts.statement) (cid k : Z) :
  subscript request_data "conceptName" = Ok concept_name ->
  subscript request_data "snomedCode" = Ok snomed_code ->
  Concepts.bound
    (Concepts.select w log (Concepts.SelectConcept concept_name))
  = Some (Some cid) ->
  (0 < cid)%Z ->
  Concepts.bound
    (Concepts.insert w (log ++ [Concepts.SelectConcept concept_name])%list
       (Concepts.InsertReferenceTerm snomed_code))
  = Some k ->
  Concepts.snomed w request_data log
  = ((log ++ [Concepts.SelectConcept concept_name;
              Concepts.InsertReferenceTerm snomed_code;
              Concepts.InsertReferenceMap k cid])%list,
     Concepts.Returns
       (JDict [("result",
                JStr ("SNOMED CT Mapping added for diagnosis "
                      ++ Concepts.format_value w concept_name))])).
Proof.
  intros Hn Hc Hsel Hpos Hterm. unfold Concepts.snomed.
  rewrite (bindM_returns _ _ _ _ _ (lift_Ok _ _ _ Hn)).
  rewrite (bindM_returns _ _ _ _ _ (lift_Ok _ _ _ Hc)).
  rewrite (bindM_returns _ _ _ _ _ (check_concept_found _ _ _ _ Hsel)).
  replace (cid >? 0)%Z with true by (symmetry; apply Z.gtb_lt; lia).
  rewrite (bindM_returns _ _ _ _ _ (reference_term_bound _ _ _ _ Hterm)).
  destruct (reference_map_returns w cid k
              ((log ++ [Concepts.SelectConcept concept_name])
                 ++ [Concepts.InsertReferenceTerm snomed_code])%list)
    as [y Hy].
  rewrite (bindM_returns _ _ _ _ _ Hy).
  unfold Concepts.ret. now rewrite <- !List.app_assoc.
Qed.

Lemma snomed_maps_a_known_concept_witness :
  Concepts.snomed Concepts.known_world Concepts.fever_request []
  = ([Concepts.SelectConcept (JStr "Fever");
      Concepts.InsertReferenceTerm (JStr "386661006");
      Concepts.InsertReferenceMap 1 42],
     Concepts.Returns
       (JDict [("result",
                JStr "SNOMED CT Mapping added for diagnosis Fever")])).
Proof.
  apply (snomed_maps_a_known_concept Concepts.known_world
           Concepts.fever_request (JStr "Fever") (JStr "386661006") [] 42 1);
    try reflexivity.
Defined.

(** X20: when no row is found and the concept and the reference term are
    inserted, the endpoint attempts the six statements in this order, with
    the number of the new concept in the name, the map and the set and the
    number of the term in the map, and it answers that the diagnosis was
    created, whether or not the insertions of the name, of the map and of
    the set succeeded. *)
Theorem snomed_creates_an_unknown_concept (w : Concepts.world)
        (request_data concept_name snomed_code : json)
        (log : list Concepts.statement) (cid crt : Z) :
  subscript request_data "conceptName" = Ok concept_name ->
  subscript request_data "snomedCode" = Ok snomed_code ->
  Concepts.select w log (Concepts.SelectConcept concept_name)
  = Concepts.Completed None ->
  Concepts.bound
    (Concepts.insert w (log ++ [Concepts.SelectConcept concept_name])%list
       Concepts.InsertConcept)
  = Some cid ->
  Concepts.bound
    (Concepts.insert w
       (log ++ [Concepts.SelectConcept concept_name;
                Concepts.InsertConcept;
                Concepts.InsertConceptName cid concept_name])%list
       (Concepts.InsertReferenceTerm snomed_code))
  = Some crt ->
  Concepts.snomed w request_data log
  = ((log ++ [Concepts.SelectConcept concept_name;
              Concepts.InsertConcept;
              Concepts.InsertConceptName cid concept_name;
              Concepts.InsertReferenceTerm snomed_code;
              Concepts.InsertReferenceMap crt cid;
              Concepts.InsertConceptSet cid])%list,
     Concepts.Returns
       (JDict [("result",
                JStr ("Diagnosis " ++ Concepts.format_value w concept_name
                      ++ " is created with Concept ID "
                      ++ Concepts.str_of_Z cid ++ " "))])).
Proof.
  intros Hn Hc Hsel Hcon Hterm. unfold Concepts.snomed.
  rewrite (bindM_returns _ _ _ _ _ (lift_Ok _ _ _ Hn)).
  rewrite (bindM_returns _ _ _ _ _ (lift_Ok _ _ _ Hc)).
  assert (Hck : Concepts.check_concept w concept_name log
                = ((log ++ [Concepts.SelectConcept concept_name])%list,
                   Concepts.Returns 0%Z)).
  { unfold Concepts.check_concept. now rewrite Hsel. }
  rewrite (bindM_returns _ _ _ _ _ Hck).
  change (0 >? 0)%Z with false. cbv iota.
  rewrite (bindM_returns _ _ _ _ _ (concept_bound _ _ _ Hcon)).
  rewrite (bindM_returns _ _ _ _ _ (concept_name_returns _ _ _ _)).
  rewrite <- !List.app_assoc. cbn [app].
  rewrite (bindM_returns _ _ _ _ _ (reference_term_bound _ _ _ _ Hterm)).
  match goal with
  | |- Concepts.bindM (Concepts.add_concept_reference_map w cid crt) _ ?l = _ =>
      destruct (reference_map_returns w cid crt l) as [y Hy]
  end.
  rewrite (bindM_returns _ _ _ _ _ Hy).
  rewrite (bindM_returns _ _ _ _ _ (diagnosis_set_returns _ _ _)).
  unfold Concepts.ret. now rewrite <- !List.app_assoc.
Qed.

Lemma snomed_creates_an_unknown_concept_witness :
  Concepts.snomed Concepts.fresh_world Concepts.fever_request []
  = ([Concepts.SelectConcept (JStr "Fever");
      Concepts.InsertConcept;
      Concepts.InsertConceptName 1 (JStr "Fever");
      Concepts.InsertReferenceTerm (JStr "386661006");
      Concepts.InsertReferenceMap 3 1;
      Concepts.InsertConceptSet 1],
     Concepts.Returns
       (JDict [("result",
                JStr "Diagnosis Fever is created with Concept ID 1 ")])).
Proof.
  apply (snomed_creates_an_unknown_concept Concepts.fresh_world
           Concepts.fever_request (JStr "Fever") (JStr "386661006") [] 1 3);
    reflexivity.
Defined.

(** X21: when the selection fails before a row is fetched, the endpoint
    does not answer: [UnboundLocalError] leaves it, and no insertion is
    attempted. *)
Theorem snomed_lookup_failure_escapes (w : Concepts.world)
        (request_data concept_name snomed_code : json)
        (log : list Concepts.statement) :
  subscript request_data "conceptName" = Ok concept_name ->
  subscript request_data "snomedCode" = Ok snomed_code ->
  Concepts.select w log (Concepts.SelectConcept concept_name)
  = Concepts.FailedBefore ->
  Concepts.snomed w request_data log
  = ((log ++ [Concepts.SelectConcept concept_name])%list,
     Concepts.Raises (Concepts.UnboundLocalError "r")).
Proof.
  intros Hn Hc Hsel. unfold Concepts.snomed.
  rewrite (bindM_returns _ _ _ _ _ (lift_Ok _ _ _ Hn)).
  rewrite (bindM_returns _ _ _ _ _ (lift_Ok _ _ _ Hc)).
  apply bindM_raises. unfold Concepts.check_concept. now rewrite Hsel.
Qed.

Lemma snomed_lookup_failure_escapes_witness :
  Concepts.snomed Concepts.broken_world Concepts.fever_request []
  = ([Concepts.SelectConcept (JStr "Fever")],
     Concepts.Raises (Concepts.UnboundLocalError "r")).
Proof.
  apply (snomed_lookup_failure_escapes Concepts.broken_world
           Concepts.fever_request (JStr "Fever") (JStr "386661006") []);
    reflexivity.
Defined.

(** X22: when no row is found, the concept is inserted and the insertion
    of the reference term fails before its number is read, the concept and
    its name stay attempted, neither the map nor the set is attempted, and
    [UnboundLocalError] leaves the endpoint: nothing is undone. *)
Theorem snomed_creation_is_not_undone (w : Concepts.world)
        (request_data concept_name snomed_code : json)
        (log : list Concepts.statement) (cid : Z) :
  subscript request_data "conceptName" = Ok concept_name ->
  subscript request_data "snomedCode" = Ok snomed_code ->
  Concepts.select w log (Concepts.SelectConcept concept_name)
  = Concepts.Completed None ->
  Concepts.bound
    (Concepts.insert w (log ++ [Concepts.SelectConcept concept_name])%list
       Concepts.InsertConcept)
  = Some cid ->
  Concepts.insert w
    (log ++ [Concepts.SelectConcept concept_name;
             Concepts.InsertConcept;
             Concepts.InsertConceptName cid concept_name])%list
    (Concepts.InsertReferenceTerm snomed_code)
  = Concepts.FailedBefore ->
  Concepts.snomed w request_data log
  = ((log ++ [Concepts.SelectConcept concept_name;
              Concepts.InsertConcept;
              Concepts.InsertConceptName cid concept_name;
              Concepts.InsertReferenceTerm snomed_code])%list,
     Concepts.Raises
       (Concepts.UnboundLocalError "concept_reference_term_id")).
Proof.
  intros Hn Hc Hsel Hcon Hterm. unfold Concepts.snomed.
  rewrite (bindM_returns _ _ _ _ _ (lift_Ok _ _ _ Hn)).
  rewrite (bindM_returns _ _ _ _ _ (lift_Ok _ _ _ Hc)).
  assert (Hck : Concepts.check_concept w concept_name log
                = ((log ++ [Concepts.SelectConcept concept_name])%list,
                   Concepts.Returns 0%Z)).
  { unfold Concepts.check_concept. now rewrite Hsel. }
  rewrite (bindM_returns _ _ _ _ _ Hck).
  change (0 >? 0)%Z with false. cbv iota.
  rewrite (bindM_returns _ _ _ _ _ (concept_bound _ _ _ Hcon)).
  rewrite (bindM_returns _ _ _ _ _ (concept_name_returns _ _ _ _)).
  rewrite <- !List.app_assoc. cbn [app].
  assert (E : Concepts.add_concept_reference_term w snomed_code
                (log ++ [Concepts.SelectConcept concept_name;
                         Concepts.InsertConcept;
                         Concepts.InsertConceptName cid concept_name])%list
              = ((log ++ [Concepts.SelectConcept concept_name;
                          Concepts.InsertConcept;
                          Concepts.InsertConceptName cid concept_name;
                          Concepts.InsertReferenceTerm snomed_code])%list,
                 Concepts.Raises
                   (Concepts.UnboundLocalError "concept_reference_term_id"))).
  { unfold Concepts.add_concept_reference_term, Concepts.inserting.
    rewrite Hterm. now rewrite <- !List.app_assoc. }
  now rewrite (bindM_raises _ _ _ _ _ E).
Qed.

Lemma snomed_creation_is_not_undone_witness :
  Concepts.snomed Concepts.term_failing_world Concepts.fever_request []
  = ([Concepts.SelectConcept (JStr "Fever");
      Concepts.InsertConcept;
      Concepts.InsertConceptName 1 (JStr "Fever");
      Concepts.InsertReferenceTerm (JStr "386661006")],
     Concepts.Raises
       (Concepts.UnboundLocalError "concept_reference_term_id")).
Proof.
  apply (snomed_creation_is_not_undone Concepts.term_failing_world
           Concepts.fever_request (JStr "Fever") (JStr "386661006") [] 1);
    reflexivity.
Defined.

(* ===================================================================== *)
(** ** Line endings and ill-typed fields *)
(* ===================================================================== *)

Section LineEndingFacts.

Lemma lstrip_app_char (s : string) (c : ascii) :
  isspace c = true ->
  lstrip_by isspace (s ++ String c "")
  = match lstrip_by isspace s with
    | "" => ""
    | t => t ++ String c ""
    end.
Proof.
  intros Hc. induction s as [|x s IH]; simpl.
  - now rewrite Hc.
  - destruct (isspace x); [exact IH | reflexivity].
Qed.

(** One more white-space character at the end changes nothing for
    [strip]. *)
Lemma strip_app_space (s : string) (c : ascii) :
  isspace c = true -> strip (s ++ String c "") = strip s.
Proof.
  intros Hc. unfold strip. rewrite (lstrip_app_char s c Hc).
  destruct (lstrip_by isspace s) as [|y t]; [reflexivity|].
  now apply rstrip_drop_last.
Qed.

(** The pieces of a text and of the same text with one more character
    that is not a line feed: the last piece gets the character. *)
Lemma split_lines_app_char (a : string) (c : ascii) :
  Ascii.eqb (ascii_of_nat 10) c = false ->
  exists init last,
    split LF a = (init ++ [last])%list /\
    split LF (a ++ String c "")
    = (init ++ [(last ++ String c "")%string])%list.
Proof.
  intros Hc. unfold split.
  assert (E : forall x y, startswith LF (String x y)
                          = Ascii.eqb (ascii_of_nat 10) x).
  { intros x y. unfold LF. cbn [startswith]. apply andb_true_r. }
  induction a as [|x a IH].
  - exists [], "". split; [reflexivity|].
    simpl "++". cbn [split_go]. now rewrite E, Hc.
  - destruct IH as [init [last [H1 H2]]].
    change (String x a ++ String c "") with (String x (a ++ String c "")).
    cbn [split_go]. rewrite !E.
    change (String.length LF - 1) with 0.
    destruct (Ascii.eqb (ascii_of_nat 10) x).
    + exists ("" :: init), last. now rewrite H1, H2.
    + rewrite H1, H2. destruct init as [|p init].
      * exists [], (String x last). split; reflexivity.
      * exists (String x p :: init), last. split; reflexivity.
Qed.

Lemma items_app_space (a : string) (c : ascii) :
  isspace c = true -> Ascii.eqb (ascii_of_nat 10) c = false ->
  diagnosis_items_of (a ++ String c "") = diagnosis_items_of a.
Proof.
  intros Hs Hc. unfold diagnosis_items_of.
  destruct (split_lines_app_char a c Hc) as [init [last [-> ->]]].
  rewrite !filter_app, !map_app. f_equal.
  cbn [filter]. rewrite (strip_app_space last c Hs).
  destruct (String.eqb (strip last) ""); cbn [negb map]; [reflexivity|].
  now rewrite (strip_app_space last c Hs).
Qed.

(** With a rationale that is no string, no turn of the loop ends
    normally. *)
Lemma locate_needs_text (rt : json) (items : list string) (i : nat)
      (nm span : string) :
  (forall s, rt <> JStr s) -> locate rt items i nm <> Ok span.
Proof.
  intros Hrt. unfold locate.
  assert (E : str_method rt = Raise AttributeError).
  { destruct rt; try reflexivity. now elim (Hrt s). }
  destruct (i <? length items - 1)%nat.
  - destruct (next_heading items i); cbn [bind]; [|discriminate].
    rewrite E. discriminate.
  - rewrite E. discriminate.
Qed.

End LineEndingFacts.

(** X23: a carriage return before a line feed is of no account: a text
    whose lines end with CR LF has the items of the text whose lines end
    with LF. *)
Theorem carriage_returns_are_dropped (a b : string) :
  diagnosis_items_of (a ++ CR ++ LF ++ b)
  = (diagnosis_items_of a ++ diagnosis_items_of b)%list.
Proof.
  rewrite <- app_assoc, items_app. unfold CR.
  now rewrite (items_app_space a (ascii_of_nat 13) eq_refl eq_refl).
Qed.

(** X24: when one of the two fields is not a string, the result is the
    empty list, whatever the other field holds. *)
Theorem ill_typed_field_gives_empty_result (j dt rt : json) :
  fields j = Ok (dt, rt) ->
  (forall s, dt <> JStr s) \/ (forall s, rt <> JStr s) ->
  rr j = Ok [].
Proof.
  intros Hf Hbad. rewrite rr_of_body.
  destruct (rr_body j) as [recs|e] eqn:E; [|reflexivity].
  destruct (rr_body_Ok j recs E) as [d [rt' [Hf' Hl]]].
  rewrite Hf in Hf'. injection Hf' as -> <-.
  destruct Hbad as [Hd | Hr]; [now elim (Hd d)|].
  destruct (rr_loop_Ok _ _ _ Hl) as [Hlen Hnth].
  destruct (diagnosis_items_of d) as [|item items] eqn:Ei.
  - destruct recs; [reflexivity | discriminate Hlen].
  - destruct (Hnth 0 item eq_refl) as [nm [lk [span [_ [Hloc _]]]]].
    now elim (locate_needs_text rt (item :: items) 0 nm span Hr).
Qed.

Lemma ill_typed_field_gives_empty_result_witness :
  rr (JDict [("data", JDict [("output",
        JDict [("diagnosis", JStr "1. Flu (Likelihood: High)");
               ("rationale", JNull)])])]) = Ok [].
Proof.
  apply (ill_typed_field_gives_empty_result _
           (JStr "1. Flu (Likelihood: High)") JNull).
  - reflexivity.
  - right. intros s H. discriminate H.
Defined.

(** X25: when the request lacks one of its two keys, or is no object, the
    exception of the subscript leaves the endpoint before the database is
    touched: no statement is attempted. *)
Theorem snomed_bad_request_touches_nothing (w : Concepts.world)
        (request_data : json) (log : list Concepts.statement) (e : exn) :
  subscript request_data "conceptName" = Raise e \/
  ((exists concept_name, subscript request_data "conceptName" = Ok concept_name)
   /\ subscript request_data "snomedCode" = Raise e) ->
  Concepts.snomed w request_data log
  = (log, Concepts.Raises (Concepts.Builtin e)).
Proof.
  intros [H | [[name Hn] Hc]]; unfold Concepts.snomed, Concepts.bindM.
  - now rewrite H.
  - now rewrite Hn, Hc.
Qed.

Lemma snomed_bad_request_touches_nothing_witness :
  Concepts.snomed Concepts.fresh_world
    (JDict [("conceptName", JStr "Fever")]) []
  = ([], Concepts.Raises (Concepts.Builtin KeyError)).
Proof.
  apply (snomed_bad_request_touches_nothing Concepts.fresh_world
           (JDict [("conceptName", JStr "Fever")]) [] KeyError).
  right. split; [exists (JStr "Fever")|]; reflexivity.
Defined.

(* ===================================================================== *)
(** ** Missing headings *)
(* ===================================================================== *)

Section HeadingFacts.



End HeadingFacts.



